(** * The directive schematic: selector building and the component-decorator edit

    A shallow embedding of [packages/schematics/angular/directive/index.ts]:
    [buildSelector], [addDirectiveToComponentDecorator],
    [addDirectiveToAppComponent] and the default factory that sequences them.

    JavaScript values that the code reads are modelled as they are at run
    time: [string | undefined] is [option string], truthiness is spelled out,
    a thrown exception is the [Throw] outcome of a state-and-exception monad
    whose state is the virtual tree together with a ghost log of the calls
    made. *)

From Stdlib Require Import Ascii String.
From stdpp Require Import base option list strings pretty gmap.

#[local] Set Warnings "-register-all".

Local Open Scope string_scope.

(** ** String helpers of [@angular-devkit/core] *)

Module Strings.

Definition is_upper (c : ascii) : bool :=
  let n := nat_of_ascii c in (65 <=? n)%nat && (n <=? 90)%nat.

Definition is_lower (c : ascii) : bool :=
  let n := nat_of_ascii c in (97 <=? n)%nat && (n <=? 122)%nat.

Definition toUpperCase (c : ascii) : ascii :=
  if is_lower c then ascii_of_nat (nat_of_ascii c - 32) else c.

Definition toLowerCase (c : ascii) : ascii :=
  if is_upper c then ascii_of_nat (nat_of_ascii c + 32) else c.

(** The class [\s] restricted to ASCII: tab, line feed, vertical tab, form
    feed, carriage return and space. *)
Definition is_space (c : ascii) : bool :=
  let n := nat_of_ascii c in
  ((9 <=? n)%nat && (n <=? 13)%nat) || (n =? 32)%nat.

(** One alternative of [(-|_|\.|\s)]. *)
Definition is_separator (c : ascii) : bool :=
  let n := nat_of_ascii c in
  (n =? 45)%nat || (n =? 95)%nat || (n =? 46)%nat || is_space c.

(** The first [replace] of [camelize]: every maximal run of separators is
    dropped and the character after it, when there is one, is upper-cased.
    [up] records that a run has just been consumed. *)
Fixpoint camelize_runs (up : bool) (s : string) : string :=
  match s with
  | EmptyString => EmptyString
  | String c rest =>
      if is_separator c then camelize_runs true rest
      else String (if up then toUpperCase c else c) (camelize_runs false rest)
  end.

(** The second [replace] of [camelize]: [/^([A-Z])/] to lower case. *)
Definition lower_first (s : string) : string :=
  match s with
  | EmptyString => EmptyString
  | String c rest => String (toLowerCase c) rest
  end.

(** Modelled from the spec: [strings.camelize] of [@angular-devkit/core],
    which is not part of the schematic's own file. The spec calls its
    output the "camel form" of the joined name; the model is the usual one
    on ASCII text: separators ([-], [_], [.], white space) disappear, the
    character that follows a run of them is capitalised, and a leading
    capital is lowered. *)
Definition camelize (str : string) : string :=
  lower_first (camelize_runs false str).

End Strings.

(** ** The options of the schematic ([schema.d.ts], the fields the code reads) *)

Record DirectiveOptions : Type := mkOptions {
  name : string;
  prefix : option string;
  selector : option string;
  path : option string;
  project : option string;
  module : option string;
  skipTests : bool;
  flat : bool
}.

(** JavaScript truthiness of a [string | undefined]: defined and not empty. *)
Definition truthy (v : option string) : option string :=
  match v with
  | Some s => if decide (s = EmptyString) then None else Some s
  | None => None
  end.

(** [buildSelector(options, projectPrefix)], lines 34-43. *)
Definition buildSelector (options : DirectiveOptions) (projectPrefix : string) : string :=
  let selector := name options in
  let selector :=
    match truthy (prefix options) with
    | Some p => p ++ "-" ++ selector
    | None =>
        if bool_decide (prefix options = None) && negb (bool_decide (projectPrefix = EmptyString))
        then projectPrefix ++ "-" ++ selector
        else selector
    end in
  Strings.camelize selector.

(** ** The fragment of the TypeScript syntax tree that the code inspects *)

Module Ts.

(** Nodes carry the fields the schematic reads. Of the text positions only
    those of an array literal's [elements] node array are kept, since
    [elements.end] is the one position the code asks for. *)
Inductive Node : Type :=
| Identifier (text : string)
| StringLiteral (text : string)
| ObjectLiteralExpression (properties : list Node)
| PropertyAssignment (name initializer : Node)
| ShorthandPropertyAssignment (name : Node)
| ArrayLiteralExpression (elements : list Node) (elements_pos elements_end : nat)
| CallExpression (expression : Node) (arguments : list Node)
| Decorator (expression : Node)
| ClassDeclaration (modifiers : list Node) (name : Node) (members : list Node)
| ImportDeclaration (bindings : list string) (moduleSpecifier : string)
| OtherNode (children : list Node).

Record SourceFile : Type := mkSourceFile {
  fileName : string;
  text : string;
  statements : list Node
}.

Definition isObjectLiteralExpression (n : Node) : bool :=
  match n with ObjectLiteralExpression _ => true | _ => false end.

Definition isPropertyAssignment (n : Node) : bool :=
  match n with PropertyAssignment _ _ => true | _ => false end.

Definition isIdentifier (n : Node) : bool :=
  match n with Identifier _ => true | _ => false end.

Definition isArrayLiteralExpression (n : Node) : bool :=
  match n with ArrayLiteralExpression _ _ _ => true | _ => false end.

(** [node.properties] of an object literal. *)
Definition properties_of (n : Node) : list Node :=
  match n with ObjectLiteralExpression ps => ps | _ => [] end.

(** [prop.name], defined on property assignments. *)
Definition name_of (n : Node) : option Node :=
  match n with
  | PropertyAssignment nm _ => Some nm
  | ShorthandPropertyAssignment nm => Some nm
  | _ => None
  end.

(** [id.text]. *)
Definition text_of (n : Node) : option string :=
  match n with
  | Identifier t => Some t
  | StringLiteral t => Some t
  | _ => None
  end.

(** [prop.initializer]. *)
Definition initializer_of (n : Node) : option Node :=
  match n with PropertyAssignment _ i => Some i | _ => None end.

(** All nodes below [n], [n] first, in document order. *)
Fixpoint subtree (n : Node) : list Node :=
  n :: match n with
       | Identifier _ | StringLiteral _ | ImportDeclaration _ _ => []
       | ObjectLiteralExpression ps => flat_map subtree ps
       | PropertyAssignment nm i => subtree nm ++ subtree i
       | ShorthandPropertyAssignment nm => subtree nm
       | ArrayLiteralExpression es _ _ => flat_map subtree es
       | CallExpression e args => subtree e ++ flat_map subtree args
       | Decorator e => subtree e
       | ClassDeclaration ms nm mems =>
           flat_map subtree ms ++ subtree nm ++ flat_map subtree mems
       | OtherNode cs => flat_map subtree cs
       end.

Definition getSourceNodes (source : SourceFile) : list Node :=
  flat_map subtree (statements source).

(** The module a local name was imported from; a later import of the same
    name replaces an earlier one. *)
Definition imported_from (source : SourceFile) (local : string) : option string :=
  foldl (fun acc stmt =>
           match stmt with
           | ImportDeclaration bs m => if bool_decide (local ∈ bs) then Some m else acc
           | _ => acc
           end) None (statements source).

(** The call expressions of the decorators [@identifier(...)] of the file,
    in document order, where [identifier] is a name imported from
    [module]. *)
Definition decorator_calls (source : SourceFile) (identifier module : string)
  : list Node :=
  omap (fun node =>
          match node with
          | Decorator (CallExpression (Identifier id) args) =>
              if bool_decide (id = identifier)
                 && bool_decide (imported_from source id = Some module)
              then Some (CallExpression (Identifier id) args) else None
          | _ => None
          end) (getSourceNodes source).

(** [expr.arguments[0]] of a call expression. *)
Definition first_argument (call : Node) : option Node :=
  match call with CallExpression _ (arg :: _) => Some arg | _ => None end.

(** Modelled from the spec: [getDecoratorMetadata] of [utility/ast-utils],
    which is not part of the schematic's own file. Following the
    Declaration Locator of the spec it enumerates the annotation
    applications of the tree in document order, keeps those whose name is
    [identifier] and was introduced by [module], and returns the literal
    argument attached to each (the first argument, when it is an object
    literal). *)
Definition getDecoratorMetadata (source : SourceFile) (identifier module : string)
  : list Node :=
  omap (fun call =>
          match first_argument call with
          | Some arg => if isObjectLiteralExpression arg then Some arg else None
          | None => None
          end) (decorator_calls source identifier module).

End Ts.

(** ** JavaScript values and the property reads of line 64 *)

Inductive Exception : Type :=
| SchematicsException (message : string)
| TypeError (message : string)
| OtherError (message : string).

Inductive Outcome (A : Type) : Type :=
| Return (a : A)
| Throw (e : Exception).
Arguments Return {A} a.
Arguments Throw {A} e.

Module Js.

(** What an expression typed [any] can hold here. *)
Inductive Value : Type :=
| Undefined
| NodeRef (n : Ts.Node)
| ArrayRef (items : list Value).

Definition cannot_read (property : string) : Exception :=
  TypeError ("Cannot read properties of undefined (reading '" ++ property ++ "')").

(** [v[i]]: reading an integer key. An array answers with its item, a syntax
    node has no integer-keyed field and answers [undefined], and reading
    from [undefined] throws. *)
Definition get_index (v : Value) (i : nat) : Outcome Value :=
  match v with
  | Undefined => Throw (cannot_read (pretty i))
  | NodeRef _ => Return Undefined
  | ArrayRef items => Return (default Undefined (items !! i))
  end.

(** [v.arguments]: only a call expression has the field. *)
Definition get_arguments (v : Value) : Outcome Value :=
  match v with
  | Undefined => Throw (cannot_read "arguments")
  | NodeRef (Ts.CallExpression _ args) => Return (ArrayRef (NodeRef <$> args))
  | NodeRef _ => Return Undefined
  | ArrayRef _ => Return Undefined
  end.

End Js.

(** ** The virtual tree, the call log and the monad of rules *)

(** What the log records: the calls that leave the function being run, in
    the order they are made. The log is ghost state; no code reads it. *)
Inductive Event : Type :=
| Call_getWorkspace
| Call_buildDefaultPath
| Call_findModuleFromOptions
| Call_parseName
| Call_buildSelector
| Call_validateHtmlSelector (selector : string)
| Call_getAppModulePath
| Call_addDeclarationToNgModule
| Call_mergeWith (rendered_selector : option string)
| Call_read (path : string)
| Call_createSourceFile (path : string)
| Call_beginUpdate (path : string)
| Call_commitUpdate (path : string).

Record State : Type := mkState {
  tree : gmap string string;
  log : list Event
}.

Definition M (A : Type) : Type := State -> Outcome A * State.

Definition ret {A} (a : A) : M A := fun s => (Return a, s).

Definition throw {A} (e : Exception) : M A := fun s => (Throw e, s).

Definition bind {A B} (m : M A) (k : A -> M B) : M B :=
  fun s =>
    match m s with
    | (Return a, s') => k a s'
    | (Throw e, s') => (Throw e, s')
    end.

Notation "'let*' x := m 'in' k" := (bind m (fun x => k))
  (at level 10, x name, m at level 100, k at level 200).
Notation "m ;;; k" := (bind m (fun _ => k))
  (at level 100, k at level 200, right associativity).

Definition record (ev : Event) : M unit :=
  fun s => (Return tt, mkState (tree s) (log s ++ [ev])).

Definition get_tree : M (gmap string string) := fun s => (Return (tree s), s).

Definition put_tree (t : gmap string string) : M unit :=
  fun s => (Return tt, mkState t (log s)).

(** A call to a collaborator that only computes: it is logged and its
    outcome becomes the outcome of the step. *)
Definition call {A} (ev : Event) (o : Outcome A) : M A :=
  record ev ;;; fun s => (o, s).

(** A computation of the function's own that may throw. *)
Definition call_pure {A} (o : Outcome A) : M A := fun s => (o, s).

(** A collaborating rule: logged, run on the current tree, and the tree it
    answers with becomes the current one. *)
Definition call_rule (ev : Event) (rule : gmap string string -> Outcome (gmap string string))
  : M unit :=
  let* host := get_tree in
  let* host' := call ev (rule host) in
  put_tree host'.

(** [chain(rules)]: the rules run one after the other on the same tree. *)
Definition chain (rules : list (M unit)) : M unit :=
  foldr (fun rule rest => rule ;;; rest) (ret tt) rules.

(** ** Changes and the update recorder *)

Record InsertChange : Type := mkInsertChange {
  change_path : string;
  pos : nat;
  toAdd : string
}.

Record UpdateRecorder : Type := mkRecorder {
  recorder_path : string;
  original : string;
  insertions : list (nat * string)
}.

(** [tree.read(path)]: the content, or [null] for a file that is absent. *)
Definition read (path : string) : M (option string) :=
  record (Call_read path) ;;;
  let* host := get_tree in
  ret (host !! path).

(** Modelled from the spec: [tree.beginUpdate(path)] of the virtual tree
    collaborator, a recorder scoped to one existing file. *)
Definition beginUpdate (path : string) : M UpdateRecorder :=
  record (Call_beginUpdate path) ;;;
  let* host := get_tree in
  match host !! path with
  | Some content => ret (mkRecorder path content [])
  | None => throw (OtherError ("Path " ++ path ++ " does not exist."))
  end.

(** [recorder.insertLeft(pos, text)]: the recorder is an append-only list. *)
Definition insertLeft (recorder : UpdateRecorder) (at_ : nat) (fragment : string)
  : UpdateRecorder :=
  mkRecorder (recorder_path recorder) (original recorder)
             (insertions recorder ++ [(at_, fragment)]).

Definition splice (content : string) (at_ : nat) (fragment : string) : string :=
  substring 0 at_ content ++ fragment
  ++ substring at_ (String.length content - at_) content.

(** Offsets are offsets of the original text: an insertion is moved right by
    what was inserted before it at the same or a lower offset. *)
Fixpoint apply_insertions (applied todo : list (nat * string)) (content : string) : string :=
  match todo with
  | [] => content
  | (at_, fragment) :: rest =>
      let shift :=
        sum_list (map (fun e => if (fst e <=? at_)%nat then String.length (snd e) else 0)
                      applied) in
      apply_insertions (applied ++ [(at_, fragment)]) rest
                       (splice content (at_ + shift) fragment)
  end.

(** Modelled from the spec: [tree.commitUpdate(recorder)] of the virtual tree
    collaborator: the queued insertions are applied to the original content
    at their recorded offsets and the result replaces the file. *)
Definition commitUpdate (recorder : UpdateRecorder) : M unit :=
  record (Call_commitUpdate (recorder_path recorder)) ;;;
  let* host := get_tree in
  put_tree (<[recorder_path recorder :=
                apply_insertions [] (insertions recorder) (original recorder)]> host).

(** ** The collaborators the schematic imports *)

Record ProjectDefinition : Type := mkProject {
  project_root : string;
  project_prefix : option string
}.

Record Location : Type := mkLocation {
  location_name : string;
  location_path : string
}.

Class Collaborators : Type := {
  (** [ts.createSourceFile(fileName, sourceText, ScriptTarget.Latest, true)] *)
  createSourceFile : string -> string -> Ts.SourceFile;
  (** [getWorkspace(host)], with [workspace.projects] as a map *)
  getWorkspace : gmap string string -> Outcome (gmap string ProjectDefinition);
  buildDefaultPath : ProjectDefinition -> string;
  findModuleFromOptions : gmap string string -> DirectiveOptions -> Outcome (option string);
  parseName : string -> string -> Location;
  validateHtmlSelector : string -> Outcome unit;
  getAppModulePath : gmap string string -> option string -> Outcome string;
  addDeclarationToNgModule :
    DirectiveOptions -> gmap string string -> Outcome (gmap string string);
  (** [mergeWith(apply(url('./files'), [...]))] with the options as the
      substitution context *)
  mergeTemplates :
    DirectiveOptions -> gmap string string -> Outcome (gmap string string)
}.

(** ** The schematic *)

Definition quote : string := String (ascii_of_nat 34) EmptyString.

(** The JavaScript value from a node array's slot. *)
Definition value_node (v : Js.Value) : option Ts.Node :=
  match v with Js.NodeRef n => Some n | _ => None end.

(** The callback handed to [find] on line 56. *)
Definition nonempty_object_literal (node : Ts.Node) : bool :=
  Ts.isObjectLiteralExpression node
  && (0 <? length (Ts.properties_of node))%nat.

(** The callback handed to [filter] on line 71. *)
Definition identifier_keyed_assignment (prop : Ts.Node) : bool :=
  Ts.isPropertyAssignment prop
  && match Ts.name_of prop with Some nm => Ts.isIdentifier nm | None => false end.

(** The callback handed to [find] on line 72. *)
Definition named_imports (prop : Ts.Node) : bool :=
  bool_decide (Ts.name_of prop ≫= Ts.text_of = Some "imports").

(** Lines 70-72: the property assignment keyed by the identifier [imports]. *)
Definition find_imports_property (metadataNode : Ts.Node) : option Ts.Node :=
  List.find named_imports
            (List.filter identifier_keyed_assignment (Ts.properties_of metadataNode)).

(** Lines 55-56: the declaration locator. *)
Definition locate (source : Ts.SourceFile) : option Ts.Node :=
  List.find nonempty_object_literal
            (Ts.getDecoratorMetadata source "Component" "@angular/core").

(** The template literal of line 83. *)
Definition insert_text (classifiedName : string) : string :=
  "[" ++ classifiedName ++ "]".

(** The two literals of lines 91 and 92. They are written between single
    quotes, so the dollar sign and the braces are characters of the string. *)
Definition classifiedName_argument : string :=
  "${strings.classify(options.name)}Directive".

Definition directivePath_argument : string :=
  "./${strings.dasherize(options.name)}.directive".

Section Schematic.

Context {collab : Collaborators}.

(** [addDirectiveToComponentDecorator(tree, classifiedName, directivePath,
    componentPath)], lines 45-85. The tree is the one of the state. *)
Definition addDirectiveToComponentDecorator
    (classifiedName directivePath componentPath : string) : M (list InsertChange) :=
  let* text := read componentPath in
  match text with
  | None =>
      throw (SchematicsException ("Component file " ++ componentPath ++ " not found."))
  | Some sourceText =>
      record (Call_createSourceFile componentPath) ;;;
      let source := createSourceFile componentPath sourceText in
      match locate source with
      | None =>
          throw (SchematicsException
                   ("Decorator @Component not found in " ++ componentPath ++ "."))
      | Some metadataNode =>
          (* const objectLiteral = metadataNode[0].arguments[0]; *)
          let* first := call_pure (Js.get_index (Js.NodeRef metadataNode) 0) in
          let* arguments := call_pure (Js.get_arguments first) in
          let* objectLiteral := call_pure (Js.get_index arguments 0) in
          match value_node objectLiteral with
          | Some (Ts.ObjectLiteralExpression _) =>
              let importsProperty := find_imports_property metadataNode in
              match importsProperty ≫= Ts.initializer_of with
              | Some (Ts.ArrayLiteralExpression _ _ elements_end) =>
                  let insertPosition := elements_end in
                  let change :=
                    mkInsertChange componentPath insertPosition
                                   (insert_text classifiedName) in
                  ret [change]
              | _ =>
                  throw (SchematicsException
                           ("Property 'imports' not found in the decorator @Component in "
                            ++ componentPath ++ "."))
              end
          | _ =>
              throw (SchematicsException
                       ("Invalid @Component decorator content found in file "
                        ++ componentPath ++ "."))
          end
      end
  end.

(** [addDirectiveToAppComponent(appComponentPath)], lines 87-107. *)
Definition addDirectiveToAppComponent (appComponentPath : string) : M unit :=
  let* changes :=
    addDirectiveToComponentDecorator
      classifiedName_argument directivePath_argument appComponentPath in
  let* recorder := beginUpdate appComponentPath in
  let recorder :=
    foldl (fun r change => insertLeft r (pos change) (toAdd change)) recorder changes in
  commitUpdate recorder.

(** Line 128: [options.selector || buildSelector(options, project.prefix || '')]. *)
Definition resolve_selector (options : DirectiveOptions) (proj : ProjectDefinition)
  : M string :=
  match truthy (selector options) with
  | Some s => ret s
  | None =>
      call Call_buildSelector
           (Return (buildSelector options
                      (default EmptyString (truthy (project_prefix proj)))))
  end.

(** Lines 142-150: the rules handed to [chain]. *)
Definition directive_rules (options : DirectiveOptions) (appComponentPath : string)
  : list (M unit) :=
  [ call_rule Call_addDeclarationToNgModule (addDeclarationToNgModule options);
    addDirectiveToAppComponent appComponentPath;
    call_rule (Call_mergeWith (selector options)) (mergeTemplates options) ].

(** Lines 142-150: [return chain([...])]. The argument of
    [addDirectiveToAppComponent] is evaluated while the array is built. *)
Definition directive_chain (host : gmap string string) (options : DirectiveOptions)
  : M unit :=
  let* appComponentPath :=
    call Call_getAppModulePath (getAppModulePath host (module options)) in
  chain (directive_rules options appComponentPath).

(** The default export, lines 110-152: the rule factory run on [host]. *)
Definition default_rule (options : DirectiveOptions) : M unit :=
  let* host := get_tree in
  let* workspace := call Call_getWorkspace (getWorkspace host) in
  match project options ≫= (fun p => workspace !! p) with
  | None =>
      throw (SchematicsException
               ("Project " ++ quote ++ default "undefined" (project options) ++ quote
                ++ " does not exist."))
  | Some proj =>
      let* path0 :=
        match path options with
        | None => call Call_buildDefaultPath (Return (buildDefaultPath proj))
        | Some p => ret p
        end in
      let options :=
        mkOptions (name options) (prefix options) (selector options) (Some path0)
                  (project options) (module options) (skipTests options) (flat options) in
      let* found := call Call_findModuleFromOptions (findModuleFromOptions host options) in
      let* parsedPath := call Call_parseName (Return (parseName path0 (name options))) in
      let options :=
        mkOptions (location_name parsedPath) (prefix options) (selector options)
                  (Some (location_path parsedPath)) (project options) found
                  (skipTests options) (flat options) in
      let* chosen := resolve_selector options proj in
      let options :=
        mkOptions (name options) (prefix options) (Some chosen) (path options)
                  (project options) (module options) (skipTests options) (flat options) in
      call (Call_validateHtmlSelector chosen) (validateHtmlSelector chosen) ;;;
      directive_chain host options
  end.

End Schematic.

(** ** Vocabulary of the statements *)

(** The state in which a step that read and parsed [path] leaves [s]. *)
Definition after_parse (path : string) (s : State) : State :=
  mkState (tree s) (log s ++ [Call_read path; Call_createSourceFile path]).

(** The exceptions of the schematic, by the names the design gives them. *)
Definition DeclarationNotFound (componentPath : string) : Exception :=
  SchematicsException ("Decorator @Component not found in " ++ componentPath ++ ".").

Definition MalformedDeclaration (componentPath : string) : Exception :=
  SchematicsException
    ("Invalid @Component decorator content found in file " ++ componentPath ++ ".").

Definition MissingStructuralCollection (componentPath : string) : Exception :=
  SchematicsException
    ("Property 'imports' not found in the decorator @Component in "
     ++ componentPath ++ ".").

(** Calls that read, parse, edit or stage files: the ones that are handed
    the tree (or, for the parser, the text of a file). *)
Definition is_file_work (ev : Event) : bool :=
  match ev with
  | Call_getWorkspace | Call_findModuleFromOptions
  | Call_getAppModulePath | Call_addDeclarationToNgModule | Call_mergeWith _
  | Call_read _ | Call_createSourceFile _ | Call_beginUpdate _ | Call_commitUpdate _ => true
  | _ => false
  end.

(** The file work of lines 142-150: the application module path, the
    declaration in the NgModule, the component rule and the templates. *)
Definition follows_validation (ev : Event) : bool :=
  match ev with
  | Call_getAppModulePath | Call_addDeclarationToNgModule | Call_mergeWith _
  | Call_read _ | Call_createSourceFile _ | Call_beginUpdate _ | Call_commitUpdate _ => true
  | _ => false
  end.

(** The values that lines 119-128 compute, for a project [proj] and a
    module lookup that answered [found]. *)
Section Factory_values.

Context {collab : Collaborators}.

Variables (options : DirectiveOptions) (proj : ProjectDefinition) (found : option string).

(** [options.path] after lines 119-121. *)
Definition path_used : string :=
  match path options with
  | Some p => p
  | None => buildDefaultPath proj
  end.

(** The options handed to [findModuleFromOptions] on line 123. *)
Definition options_for_lookup : DirectiveOptions :=
  mkOptions (name options) (prefix options) (selector options) (Some path_used)
            (project options) (module options) (skipTests options) (flat options).

(** The options after lines 123-127. *)
Definition options_after_parse : DirectiveOptions :=
  mkOptions (location_name (parseName path_used (name options))) (prefix options)
            (selector options)
            (Some (location_path (parseName path_used (name options))))
            (project options) found (skipTests options) (flat options).

(** [options.selector] after line 128. *)
Definition selector_used : string :=
  match truthy (selector options) with
  | Some supplied => supplied
  | None =>
      buildSelector options_after_parse
                    (default EmptyString (truthy (project_prefix proj)))
  end.

(** The options from which the rules of the chain are built. *)
Definition options_for_chain : DirectiveOptions :=
  mkOptions (name options_after_parse) (prefix options) (Some selector_used)
            (path options_after_parse) (project options) found
            (skipTests options) (flat options).

(** The calls made up to line 128 when none of them throws. *)
Definition setup_calls : list Event :=
  [Call_getWorkspace]
  ++ match path options with Some _ => [] | None => [Call_buildDefaultPath] end
  ++ [Call_findModuleFromOptions; Call_parseName]
  ++ match truthy (selector options) with Some _ => [] | None => [Call_buildSelector] end.

End Factory_values.

(** [m] only appends to the log, and only events that satisfy [P]. *)
Definition logs_only {A} (P : Event -> Prop) (m : M A) : Prop :=
  forall s, exists trace, log (snd (m s)) = (log s ++ trace)%list /\ Forall P trace.

(** [m] appends a run of events that satisfy [Q] and then a run [rest]
    that satisfies [R]. *)
Definition phased {A} (Q : Event -> Prop) (R : list Event -> Prop) (m : M A) : Prop :=
  forall s, exists setup rest,
    log (snd (m s)) = (log s ++ setup ++ rest)%list /\ Forall Q setup /\ R rest.

(** How often [needle] occurs in [hay]. *)
Fixpoint occurrences (needle hay : string) : nat :=
  (if String.prefix needle hay then 1 else 0)
  + match hay with
    | EmptyString => 0
    | String _ rest => occurrences needle rest
    end.

(** ** Sample component files *)

Module Samples.

Definition component_path : string := "/src/app/app.component.ts".

Definition import_core : Ts.Node := Ts.ImportDeclaration ["Component"] "@angular/core".

(** [@Component(argument) export class name {}] *)
Definition component_class (argument : Ts.Node) (name : string) : Ts.Node :=
  Ts.ClassDeclaration
    [Ts.Decorator (Ts.CallExpression (Ts.Identifier "Component") [argument])]
    (Ts.Identifier name) [].

Definition imports_property (value : Ts.Node) : Ts.Node :=
  Ts.PropertyAssignment (Ts.Identifier "imports") value.

Definition with_imports_text : string :=
  "import { Component } from '@angular/core'; @Component({ imports: [Bar] }) export class AppComponent {}".

Definition with_imports_metadata : Ts.Node :=
  Ts.ObjectLiteralExpression
    [imports_property (Ts.ArrayLiteralExpression [Ts.Identifier "Bar"] 66 69)].

Definition without_imports_text : string :=
  "import { Component } from '@angular/core'; @Component({ selector: 'app-root' }) export class AppComponent {}".

Definition without_imports_metadata : Ts.Node :=
  Ts.ObjectLiteralExpression
    [Ts.PropertyAssignment (Ts.Identifier "selector") (Ts.StringLiteral "app-root")].

Definition imports_not_array_text : string :=
  "import { Component } from '@angular/core'; @Component({ imports: SHARED }) export class AppComponent {}".

Definition imports_not_array_metadata : Ts.Node :=
  Ts.ObjectLiteralExpression [imports_property (Ts.Identifier "SHARED")].

Definition empty_literal_text : string :=
  "import { Component } from '@angular/core'; @Component({}) export class AppComponent {}".

Definition three_components_text : string :=
  "import { Component } from '@angular/core'; @Component({}) class A {} @Component({ imports: [] }) class B {} @Component({ imports: [Bar] }) class C {}".

Definition second_metadata : Ts.Node :=
  Ts.ObjectLiteralExpression [imports_property (Ts.ArrayLiteralExpression [] 92 92)].

Definition third_metadata : Ts.Node :=
  Ts.ObjectLiteralExpression
    [imports_property (Ts.ArrayLiteralExpression [Ts.Identifier "Bar"] 131 134)].

(** The syntax trees of the sample texts, as the TypeScript parser builds
    them (restricted to the fields of [Ts.Node]). *)
Definition parsed : list (string * list Ts.Node) :=
  [ (with_imports_text,
     [import_core; component_class with_imports_metadata "AppComponent"]);
    (without_imports_text,
     [import_core; component_class without_imports_metadata "AppComponent"]);
    (imports_not_array_text,
     [import_core; component_class imports_not_array_metadata "AppComponent"]);
    (empty_literal_text,
     [import_core; component_class (Ts.ObjectLiteralExpression []) "AppComponent"]);
    (three_components_text,
     [import_core;
      component_class (Ts.ObjectLiteralExpression []) "A";
      component_class second_metadata "B";
      component_class third_metadata "C"]) ].

(** The parser tabulated on the sample texts. *)
Definition parse (fileName sourceText : string) : Ts.SourceFile :=
  Ts.mkSourceFile fileName sourceText
    (default [] (snd <$> List.find (fun e => String.eqb (fst e) sourceText) parsed)).

Definition app_project : ProjectDefinition := mkProject "" (Some "app").

#[local] Instance collaborators : Collaborators := {|
  createSourceFile := parse;
  getWorkspace := fun _ => Return {[ "demo" := app_project ]};
  buildDefaultPath := fun _ => "/src/app";
  findModuleFromOptions := fun _ _ => Return (Some "/src/app/app.module.ts");
  parseName := fun path name => mkLocation name path;
  validateHtmlSelector := fun _ => Return tt;
  getAppModulePath := fun _ _ => Return component_path;
  addDeclarationToNgModule := fun _ host => Return host;
  mergeTemplates := fun _ host => Return host
|}.

(** A tree that holds one component file. *)
Definition host_with (content : string) : State :=
  mkState {[ component_path := content ]} [].

Definition foo_options : DirectiveOptions :=
  mkOptions "foo" None None None (Some "demo") None false false.

End Samples.


(** ** The template filter of the factory *)

(** [s.endsWith(suffix)]: the last [suffix.length] characters of [s] are
    [suffix]. *)
Definition endsWith (s suffix : string) : bool :=
  let n := String.length s in
  let m := String.length suffix in
  (m <=? n)%nat && String.eqb (substring (n - m) m s) suffix.

(** Line 133: whether a template file stays in the source. With
    [skipTests] the rule is [filter] with the predicate of the arrow
    function; without it the rule is [noop()] and every file stays. *)
Definition keeps_template (options : DirectiveOptions) (templatePath : string) : bool :=
  if skipTests options
  then negb (endsWith templatePath ".spec.ts.template")
  else true.

(** ** Specifications of rules *)

(** From a state that satisfies [Pre], [m] either returns a value and a
    state related by [Returns], or throws an exception and leaves a state
    related by [Throws]. *)
Definition triple {A} (Pre : State -> Prop) (m : M A)
    (Returns : A -> State -> Prop) (Throws : Exception -> State -> Prop) : Prop :=
  forall s, Pre s ->
    match m s with
    | (Return a, s') => Returns a s'
    | (Throw e, s') => Throws e s'
    end.

(** [Inv] survives the logging of [ev]. *)
Definition logged_under (Inv : State -> Prop) (ev : Event) : Prop :=
  forall s, Inv s -> Inv (mkState (tree s) (log s ++ [ev])).

(** Collaborators whose validation refuses every selector. *)
Module Strict.

Definition refusal (selector : string) : Exception :=
  SchematicsException ("Selector (" ++ selector ++ ") is invalid.").

#[local] Instance collaborators : Collaborators := {|
  createSourceFile := Samples.parse;
  getWorkspace := fun _ => Return {[ "demo" := Samples.app_project ]};
  buildDefaultPath := fun _ => "/src/app";
  findModuleFromOptions := fun _ _ => Return (Some "/src/app/app.module.ts");
  parseName := fun path name => mkLocation name path;
  validateHtmlSelector := fun selector => Throw (refusal selector);
  getAppModulePath := fun _ _ => Return Samples.component_path;
  addDeclarationToNgModule := fun _ host => Return host;
  mergeTemplates := fun _ host => Return host
|}.

End Strict.

(** * Properties *)

(** ** What [addDirectiveToComponentDecorator] answers *)

Section Decorator_facts.

Context {collab : Collaborators}.

Lemma decorator_file_absent (cn dp p : string) (s : State) :
  tree s !! p = None ->
  addDirectiveToComponentDecorator cn dp p s
  = (Throw (SchematicsException ("Component file " ++ p ++ " not found.")),
     mkState (tree s) (log s ++ [Call_read p])).
Proof.
  intros Hread.
  unfold addDirectiveToComponentDecorator, read, bind, record, get_tree, ret, throw.
  simpl. by rewrite Hread.
Qed.

Lemma decorator_not_located (cn dp p text : string) (s : State) :
  tree s !! p = Some text ->
  locate (createSourceFile p text) = None ->
  addDirectiveToComponentDecorator cn dp p s
  = (Throw (DeclarationNotFound p), after_parse p s).
Proof.
  intros Hread Hloc.
  unfold addDirectiveToComponentDecorator, read, bind, record, get_tree, ret, throw.
  simpl. rewrite Hread, Hloc. unfold after_parse. simpl.
  by rewrite <- app_assoc.
Qed.

(** Line 64 reads [metadataNode[0]] from a node, gets [undefined], and
    reads [arguments] from it. *)
Lemma decorator_located (cn dp p text : string) (s : State) (site : Ts.Node) :
  tree s !! p = Some text ->
  locate (createSourceFile p text) = Some site ->
  addDirectiveToComponentDecorator cn dp p s
  = (Throw (Js.cannot_read "arguments"), after_parse p s).
Proof.
  intros Hread Hloc.
  unfold addDirectiveToComponentDecorator, read, bind, record, get_tree, ret, throw.
  simpl. rewrite Hread, Hloc. unfold call_pure, after_parse. simpl.
  by rewrite <- app_assoc.
Qed.

(** The function has no path on which it returns. *)
Lemma decorator_throws (cn dp p : string) (s : State) :
  exists e s', addDirectiveToComponentDecorator cn dp p s = (Throw e, s')
               /\ tree s' = tree s.
Proof.
  destruct (tree s !! p) as [text|] eqn:Hread.
  - destruct (locate (createSourceFile p text)) as [site|] eqn:Hloc.
    + eexists _, _. split; [by eapply decorator_located|done].
    + eexists _, _. split; [by eapply decorator_not_located|done].
  - eexists _, _. split; [by eapply decorator_file_absent|done].
Qed.

Lemma app_component_throws (p : string) (s : State) (e : Exception) (s' : State) :
  addDirectiveToComponentDecorator classifiedName_argument directivePath_argument p s
  = (Throw e, s') ->
  addDirectiveToAppComponent p s = (Throw e, s').
Proof.
  intros Hrun. unfold addDirectiveToAppComponent, bind. by rewrite Hrun.
Qed.

End Decorator_facts.

(** ** The edit pipeline on a located declaration *)

Section Located_declaration.

Context {collab : Collaborators}.

Variables (s : State) (p text : string) (site : Ts.Node).

Hypothesis file_read : tree s !! p = Some text.
Hypothesis located : locate (createSourceFile p text) = Some site.

(** C1 (the code departs from the claim). Take a component file whose
    located [@Component] object literal has an [imports] property that is
    an array literal of [N] elements. The edit pipeline
    [addDirectiveToAppComponent] does not produce a file with [N+1]
    elements: it stops on line 64 with a [TypeError], having read and
    parsed the file, and the tree still holds the original text. *)
Theorem edit_pipeline_on_imports_array
    (elements : list Ts.Node) (elements_pos elements_end : nat) :
  find_imports_property site ≫= Ts.initializer_of
  = Some (Ts.ArrayLiteralExpression elements elements_pos elements_end) ->
  addDirectiveToAppComponent p s
  = (Throw (Js.cannot_read "arguments"), after_parse p s)
  /\ tree (snd (addDirectiveToAppComponent p s)) !! p = Some text.
Proof.
  intros _.
  assert (Hrun : addDirectiveToAppComponent p s
                 = (Throw (Js.cannot_read "arguments"), after_parse p s)).
  { apply app_component_throws. by eapply decorator_located. }
  split; [done|]. by rewrite Hrun.
Qed.

(** C2 (the code departs from the claim). Take a component file whose
    located [@Component] object literal has no [imports] property, or has
    one whose value is not an array literal. No file of the tree is
    modified, as claimed, but the failure is the [TypeError] of line 64 and
    not the exception that names the missing [imports] property: line 80
    is not reached. *)
Theorem missing_imports_outcome (classifiedName directivePath : string) :
  find_imports_property site = None
  \/ (exists value, find_imports_property site ≫= Ts.initializer_of = Some value
                    /\ Ts.isArrayLiteralExpression value = false) ->
  let result := addDirectiveToComponentDecorator classifiedName directivePath p s in
  fst result = Throw (Js.cannot_read "arguments")
  /\ fst result <> Throw (MissingStructuralCollection p)
  /\ snd result = after_parse p s.
Proof.
  intros _ result. subst result.
  rewrite (decorator_located _ _ _ _ _ _ file_read located). simpl.
  repeat split. discriminate.
Qed.

(** C6 (the code departs from the claim). Take a component file with a
    located [@Component] declaration whose [imports] property is an array
    literal. No insertion is computed: the function throws on line 64, so
    it does not return the change whose offset is [elements.end] and whose
    text is the identifier between brackets (lines 78 and 83 are not
    reached). *)
Theorem insertion_point_outcome
    (classifiedName directivePath : string)
    (elements : list Ts.Node) (elements_pos elements_end : nat) :
  find_imports_property site ≫= Ts.initializer_of
  = Some (Ts.ArrayLiteralExpression elements elements_pos elements_end) ->
  let result := addDirectiveToComponentDecorator classifiedName directivePath p s in
  fst result = Throw (Js.cannot_read "arguments")
  /\ fst result
     <> Return [mkInsertChange p elements_end ("[" ++ classifiedName ++ "]")].
Proof.
  intros _ result. subst result.
  rewrite (decorator_located _ _ _ _ _ _ file_read located). simpl.
  split; [done|discriminate].
Qed.

End Located_declaration.

(** C8 (the code departs from the claim). Running the edit pipeline twice
    from the same starting file does not insert the registration text twice:
    each run ends in an exception, the second in the same one as the first,
    and after both runs the tree is the starting tree. *)
Theorem edit_pipeline_twice {collab : Collaborators} (p : string) (s : State) :
  let first := addDirectiveToAppComponent p s in
  let second := addDirectiveToAppComponent p (snd first) in
  (exists e, fst first = Throw e /\ fst second = Throw e)
  /\ tree (snd first) = tree s
  /\ tree (snd second) = tree s.
Proof.
  assert (Hshape : forall s0,
             exists e, addDirectiveToAppComponent p s0
                       = (Throw e, mkState (tree s0) (log (snd (addDirectiveToAppComponent p s0))))
                       /\ (forall s1, tree s1 = tree s0 ->
                                      fst (addDirectiveToAppComponent p s1) = Throw e)).
  { intros s0.
    destruct (tree s0 !! p) as [text|] eqn:Hread.
    - destruct (locate (createSourceFile p text)) as [site|] eqn:Hloc.
      + eexists. split.
        * rewrite (app_component_throws _ _ _ _ (decorator_located _ _ _ _ _ _ Hread Hloc)).
          reflexivity.
        * intros s1 Heq. rewrite <- Heq in Hread.
          by rewrite (app_component_throws _ _ _ _ (decorator_located _ _ _ _ _ _ Hread Hloc)).
      + eexists. split.
        * rewrite (app_component_throws _ _ _ _ (decorator_not_located _ _ _ _ _ Hread Hloc)).
          reflexivity.
        * intros s1 Heq. rewrite <- Heq in Hread.
          by rewrite (app_component_throws _ _ _ _ (decorator_not_located _ _ _ _ _ Hread Hloc)).
    - eexists. split.
      + rewrite (app_component_throws _ _ _ _ (decorator_file_absent _ _ _ _ Hread)).
        reflexivity.
      + intros s1 Heq. rewrite <- Heq in Hread.
        by rewrite (app_component_throws _ _ _ _ (decorator_file_absent _ _ _ _ Hread)). }
  intros first second. subst first second.
  destruct (Hshape s) as (e & Hfirst & Hagain).
  assert (Htree : tree (snd (addDirectiveToAppComponent p s)) = tree s) by by rewrite Hfirst.
  repeat split.
  - exists e. split; [by rewrite Hfirst|by apply Hagain].
  - done.
  - destruct (Hshape (snd (addDirectiveToAppComponent p s))) as (e' & Hsecond & _).
    rewrite Hsecond. simpl. done.
Qed.

(** ** The declaration locator *)

Section Find_facts.

Context {A : Type} (f : A -> bool).

Lemma find_first (before after : list A) (x : A) :
  Forall (fun y => f y = false) before -> f x = true ->
  List.find f (before ++ x :: after)%list = Some x.
Proof.
  intros Hbefore Hx. induction Hbefore as [|y ys Hy _ IH]; simpl.
  - by rewrite Hx.
  - by rewrite Hy.
Qed.

Lemma find_split (l : list A) (x : A) :
  List.find f l = Some x ->
  exists before after,
    l = (before ++ x :: after)%list /\ Forall (fun y => f y = false) before /\ f x = true.
Proof.
  induction l as [|y ys IH]; simpl; [discriminate|].
  destruct (f y) eqn:Hy.
  - intros [= ->]. by exists [], ys.
  - intros Hfind. destruct (IH Hfind) as (before & after & -> & Hbefore & Hx).
    exists (y :: before), after. repeat split; [by constructor|done].
Qed.

Lemma find_nothing (l : list A) :
  Forall (fun y => f y = false) l -> List.find f l = None.
Proof.
  induction 1 as [|y ys Hy _ IH]; simpl; [done|]. by rewrite Hy.
Qed.

End Find_facts.

(** Every candidate of the locator is the first argument of a decorator
    call of the file. *)
Lemma metadata_is_first_argument (source : Ts.SourceFile) (identifier module : string)
    (arg : Ts.Node) :
  arg ∈ Ts.getDecoratorMetadata source identifier module ->
  exists call, call ∈ Ts.decorator_calls source identifier module
               /\ Ts.first_argument call = Some arg.
Proof.
  unfold Ts.getDecoratorMetadata. rewrite list_elem_of_omap.
  intros (call & Hin & Hsome). exists call. split; [done|].
  destruct (Ts.first_argument call) as [a|]; [|discriminate].
  destruct (Ts.isObjectLiteralExpression a); [|discriminate].
  by injection Hsome as ->.
Qed.

(** C7. Among the [@Component] decorator-metadata candidates, in document
    order, the locator selects the first that is a non-empty object literal
    and nothing else: whatever follows that candidate has no influence, and
    a site is only ever such a first candidate. When no candidate qualifies
    (in particular when the annotation is absent and there is no
    candidate), no site is selected and the operation fails with the
    exception "Decorator @Component not found in <file>.". *)
Theorem declaration_locator {collab : Collaborators} (source : Ts.SourceFile) :
  let candidates := Ts.getDecoratorMetadata source "Component" "@angular/core" in
  (forall before site after,
      candidates = (before ++ site :: after)%list ->
      Forall (fun n => nonempty_object_literal n = false) before ->
      nonempty_object_literal site = true ->
      locate source = Some site)
  /\ (forall site,
         locate source = Some site ->
         exists before after,
           candidates = (before ++ site :: after)%list
           /\ Forall (fun n => nonempty_object_literal n = false) before
           /\ nonempty_object_literal site = true)
  /\ (Forall (fun n => nonempty_object_literal n = false) candidates ->
      locate source = None
      /\ forall (s : State) (p text classifiedName directivePath : string),
          tree s !! p = Some text ->
          createSourceFile p text = source ->
          addDirectiveToComponentDecorator classifiedName directivePath p s
          = (Throw (DeclarationNotFound p), after_parse p s)).
Proof.
  intros candidates. subst candidates. unfold locate. repeat split.
  - intros before site after -> Hbefore Hsite. by apply find_first.
  - intros site. apply find_split.
  - by apply find_nothing.
  - intros s p text cn dp Hread <-.
    apply (decorator_not_located _ _ _ text); [done|].
    by apply find_nothing.
Qed.

Lemma declaration_locator_witness :
  locate (Samples.parse Samples.component_path Samples.three_components_text)
  = Some Samples.second_metadata
  /\ addDirectiveToComponentDecorator (collab := Samples.collaborators)
       "FooDirective" "./foo.directive" Samples.component_path
       (Samples.host_with Samples.empty_literal_text)
     = (Throw (DeclarationNotFound Samples.component_path),
        after_parse Samples.component_path (Samples.host_with Samples.empty_literal_text)).
Proof.
  split.
  - apply (proj1 (declaration_locator (collab := Samples.collaborators)
                    (Samples.parse Samples.component_path Samples.three_components_text))
             [Ts.ObjectLiteralExpression []] Samples.second_metadata [Samples.third_metadata]).
    + reflexivity.
    + repeat constructor.
    + reflexivity.
  - destruct (proj2 (proj2 (declaration_locator (collab := Samples.collaborators)
                    (Samples.parse Samples.component_path Samples.empty_literal_text))))
      as [_ Hthrow].
    + repeat constructor.
    + apply (Hthrow _ _ Samples.empty_literal_text); reflexivity.
Defined.

(** ** A declaration whose argument does not qualify *)

(** C3, as the code has it. Take a component file in which no [@Component]
    declaration has a non-empty object literal as its argument. The
    operation fails with the exception "Decorator @Component not found in
    <file>.", which names the file, after reading and parsing it. *)
Theorem unqualified_declaration_outcome {collab : Collaborators}
    (s : State) (p text classifiedName directivePath : string) :
  tree s !! p = Some text ->
  Forall (fun call => forall arg, Ts.first_argument call = Some arg ->
                                  nonempty_object_literal arg = false)
         (Ts.decorator_calls (createSourceFile p text) "Component" "@angular/core") ->
  addDirectiveToComponentDecorator classifiedName directivePath p s
  = (Throw (DeclarationNotFound p), after_parse p s).
Proof.
  intros Hread Hcalls.
  apply (decorator_not_located _ _ _ text); [done|].
  apply find_nothing. rewrite Forall_forall. intros arg Harg.
  destruct (metadata_is_first_argument _ _ _ _ Harg) as (call & Hcall & Hfirst).
  rewrite Forall_forall in Hcalls. by apply (Hcalls call).
Qed.

Lemma unqualified_declaration_outcome_witness :
  addDirectiveToComponentDecorator (collab := Samples.collaborators)
    "FooDirective" "./foo.directive" Samples.component_path
    (Samples.host_with Samples.empty_literal_text)
  = (Throw (DeclarationNotFound Samples.component_path),
     after_parse Samples.component_path (Samples.host_with Samples.empty_literal_text)).
Proof.
  apply (unqualified_declaration_outcome (collab := Samples.collaborators)
           _ _ Samples.empty_literal_text).
  - reflexivity.
  - repeat constructor. intros arg [= <-]. reflexivity.
Defined.

(** C3 as stated fails on the file [@Component({})]: a declaration is there,
    its argument is an empty object literal, and the failure is the
    "not found" exception, not the "Invalid @Component decorator content"
    one. *)
Lemma malformed_declaration_counterexample :
  tree (Samples.host_with Samples.empty_literal_text) !! Samples.component_path
  = Some Samples.empty_literal_text
  /\ Ts.decorator_calls
       (Samples.parse Samples.component_path Samples.empty_literal_text)
       "Component" "@angular/core"
     = [Ts.CallExpression (Ts.Identifier "Component") [Ts.ObjectLiteralExpression []]]
  /\ nonempty_object_literal (Ts.ObjectLiteralExpression []) = false
  /\ fst (addDirectiveToComponentDecorator (collab := Samples.collaborators)
            classifiedName_argument directivePath_argument Samples.component_path
            (Samples.host_with Samples.empty_literal_text))
     = Throw (DeclarationNotFound Samples.component_path)
  /\ fst (addDirectiveToComponentDecorator (collab := Samples.collaborators)
            classifiedName_argument directivePath_argument Samples.component_path
            (Samples.host_with Samples.empty_literal_text))
     <> Throw (MalformedDeclaration Samples.component_path).
Proof.
  repeat split. vm_compute. discriminate.
Qed.

(** ** The selector *)

(** C5. [buildSelector] returns the camel form of the prefix joined to the
    name with [-] when a non-empty prefix is given, of the project prefix
    joined to the name when no prefix was specified and the project prefix is
    not empty, and of the bare name otherwise (an empty prefix that was
    specified, or nothing to prefix with). An explicit prefix wins whatever
    the project prefix is, and outside the second case the project prefix
    plays no part: the result is the one obtained with no project prefix. *)
Theorem buildSelector_cases (options : DirectiveOptions) (projectPrefix : string) :
  (forall p, prefix options = Some p -> p <> EmptyString ->
             forall anyProjectPrefix,
               buildSelector options anyProjectPrefix
               = Strings.camelize (p ++ "-" ++ name options))
  /\ (prefix options = None -> projectPrefix <> EmptyString ->
      buildSelector options projectPrefix
      = Strings.camelize (projectPrefix ++ "-" ++ name options))
  /\ (prefix options = Some EmptyString
      \/ (prefix options = None /\ projectPrefix = EmptyString) ->
      buildSelector options projectPrefix = Strings.camelize (name options))
  /\ (~ (prefix options = None /\ projectPrefix <> EmptyString) ->
      buildSelector options projectPrefix = buildSelector options EmptyString).
Proof.
  unfold buildSelector, truthy. repeat split.
  - intros p -> Hp pp. by rewrite decide_False.
  - intros -> Hpp. simpl. by rewrite (bool_decide_eq_false_2 _ Hpp).
  - intros [->|[-> ->]]; reflexivity.
  - intros Hnot. destruct (prefix options) as [p|]; simpl.
    + by destruct (decide (p = EmptyString)).
    + destruct (decide (projectPrefix = EmptyString)) as [->|Hne]; [done|].
      exfalso. by apply Hnot.
Qed.

Lemma buildSelector_cases_witness :
  buildSelector (mkOptions "foo" (Some "my") None None None None false false) "app"
  = "myFoo"
  /\ buildSelector (mkOptions "foo" None None None None None false false) "app"
     = "appFoo"
  /\ buildSelector (mkOptions "foo" (Some EmptyString) None None None None false false) "app"
     = "foo".
Proof.
  split; [|split].
  - apply (proj1 (buildSelector_cases
                    (mkOptions "foo" (Some "my") None None None None false false) "app")
             "my"); [reflexivity|discriminate].
  - apply (proj1 (proj2 (buildSelector_cases
                    (mkOptions "foo" None None None None None false false) "app")));
      [reflexivity|discriminate].
  - apply (proj1 (proj2 (proj2 (buildSelector_cases
                    (mkOptions "foo" (Some EmptyString) None None None None false false)
                    "app")))).
    by left.
Defined.

(** C4 as stated fails on its own scenario: the selector is not [app-foo],
    and the run ends on line 64 with the component file as it was, the name
    [FooDirective] occurring nowhere in it. *)
Lemma end_to_end_counterexample :
  buildSelector Samples.foo_options "app" <> "app-foo"
  /\ default_rule (collab := Samples.collaborators) Samples.foo_options
       (Samples.host_with Samples.with_imports_text)
     = (Throw (Js.cannot_read "arguments"),
        mkState {[ Samples.component_path := Samples.with_imports_text ]}
                [Call_getWorkspace; Call_buildDefaultPath; Call_findModuleFromOptions;
                 Call_parseName; Call_buildSelector; Call_validateHtmlSelector "appFoo";
                 Call_getAppModulePath; Call_addDeclarationToNgModule;
                 Call_read Samples.component_path;
                 Call_createSourceFile Samples.component_path])
  /\ occurrences "FooDirective" Samples.with_imports_text = 0.
Proof.
  split; [|split].
  - vm_compute. discriminate.
  - vm_compute. reflexivity.
  - vm_compute. reflexivity.
Qed.

(** ** Sample runs of the located-declaration theorems *)

Lemma edit_pipeline_on_imports_array_witness :
  locate (Samples.parse Samples.component_path Samples.with_imports_text)
  = Some Samples.with_imports_metadata
  /\ addDirectiveToAppComponent (collab := Samples.collaborators) Samples.component_path
       (Samples.host_with Samples.with_imports_text)
     = (Throw (Js.cannot_read "arguments"),
        after_parse Samples.component_path (Samples.host_with Samples.with_imports_text))
  /\ tree (snd (addDirectiveToAppComponent (collab := Samples.collaborators)
                  Samples.component_path (Samples.host_with Samples.with_imports_text)))
       !! Samples.component_path
     = Some Samples.with_imports_text.
Proof.
  split; [reflexivity|].
  apply (edit_pipeline_on_imports_array (collab := Samples.collaborators)
           (Samples.host_with Samples.with_imports_text) Samples.component_path
           Samples.with_imports_text Samples.with_imports_metadata
           eq_refl eq_refl [Ts.Identifier "Bar"] 66 69).
  reflexivity.
Defined.

Lemma missing_imports_outcome_witness :
  (fst (addDirectiveToComponentDecorator (collab := Samples.collaborators)
          "FooDirective" "./foo.directive" Samples.component_path
          (Samples.host_with Samples.without_imports_text))
   = Throw (Js.cannot_read "arguments"))
  /\ (fst (addDirectiveToComponentDecorator (collab := Samples.collaborators)
             "FooDirective" "./foo.directive" Samples.component_path
             (Samples.host_with Samples.imports_not_array_text))
      = Throw (Js.cannot_read "arguments")).
Proof.
  split.
  - apply (missing_imports_outcome (collab := Samples.collaborators)
             (Samples.host_with Samples.without_imports_text) Samples.component_path
             Samples.without_imports_text Samples.without_imports_metadata
             eq_refl eq_refl "FooDirective" "./foo.directive").
    left. reflexivity.
  - apply (missing_imports_outcome (collab := Samples.collaborators)
             (Samples.host_with Samples.imports_not_array_text) Samples.component_path
             Samples.imports_not_array_text Samples.imports_not_array_metadata
             eq_refl eq_refl "FooDirective" "./foo.directive").
    right. exists (Ts.Identifier "SHARED"). split; reflexivity.
Defined.

Lemma insertion_point_outcome_witness :
  fst (addDirectiveToComponentDecorator (collab := Samples.collaborators)
         "FooDirective" "./foo.directive" Samples.component_path
         (Samples.host_with Samples.with_imports_text))
  = Throw (Js.cannot_read "arguments")
  /\ fst (addDirectiveToComponentDecorator (collab := Samples.collaborators)
            "FooDirective" "./foo.directive" Samples.component_path
            (Samples.host_with Samples.with_imports_text))
     <> Return [mkInsertChange Samples.component_path 69 "[FooDirective]"].
Proof.
  apply (insertion_point_outcome (collab := Samples.collaborators)
           (Samples.host_with Samples.with_imports_text) Samples.component_path
           Samples.with_imports_text Samples.with_imports_metadata
           eq_refl eq_refl "FooDirective" "./foo.directive" [Ts.Identifier "Bar"] 66 69).
  reflexivity.
Defined.

(** The offsets of the sample file: the elements of [[Bar]] span 66 to 69. *)
Example with_imports_offsets :
  substring 65 5 Samples.with_imports_text = "[Bar]"
  /\ substring 66 (69 - 66) Samples.with_imports_text = "Bar".
Proof. split; reflexivity. Qed.

(** What the recorder does with one insertion at the end of the elements:
    the fragment lands between [Bar] and the closing bracket, with no
    separator before it. *)
Example recorder_on_sample :
  apply_insertions [] [(69, insert_text "FooDirective")] Samples.with_imports_text
  = "import { Component } from '@angular/core'; @Component({ imports: [Bar[FooDirective]] }) export class AppComponent {}".
Proof. reflexivity. Qed.

(** Two runs on the sample file leave it without the fragment. *)
Example two_runs_on_sample :
  let first := addDirectiveToAppComponent (collab := Samples.collaborators)
                 Samples.component_path (Samples.host_with Samples.with_imports_text) in
  let second := addDirectiveToAppComponent (collab := Samples.collaborators)
                  Samples.component_path (snd first) in
  fst first = Throw (Js.cannot_read "arguments")
  /\ fst second = Throw (Js.cannot_read "arguments")
  /\ tree (snd second) !! Samples.component_path = Some Samples.with_imports_text
  /\ occurrences ("[" ++ classifiedName_argument ++ "]") Samples.with_imports_text = 0.
Proof. vm_compute. repeat split. Qed.

(** ** The order of the calls of the factory *)

Section Log_facts.

Context {collab : Collaborators}.

Variable P : Event -> Prop.

Lemma logs_only_silent {A} (m : M A) :
  (forall s, log (snd (m s)) = log s) -> logs_only P m.
Proof. intros Hm s. exists []. rewrite Hm, app_nil_r. by split. Qed.

Lemma logs_only_record (ev : Event) : P ev -> logs_only P (record ev).
Proof. intros Hev s. exists [ev]. split; [done|by repeat constructor]. Qed.

Lemma logs_only_bind {A B} (m : M A) (k : A -> M B) :
  logs_only P m -> (forall a, logs_only P (k a)) -> logs_only P (bind m k).
Proof.
  intros Hm Hk s. unfold bind.
  destruct (Hm s) as (trace & Hlog & Htrace).
  destruct (m s) as [[a|e] s']; simpl in *.
  - destruct (Hk a s') as (trace' & Hlog' & Htrace').
    exists (trace ++ trace')%list. rewrite Hlog', Hlog, app_assoc.
    split; [done|by apply Forall_app].
  - by exists trace.
Qed.

Lemma logs_only_call {A} (ev : Event) (o : Outcome A) : P ev -> logs_only P (call ev o).
Proof.
  intros Hev. apply logs_only_bind; [by apply logs_only_record|].
  intros _. by apply logs_only_silent.
Qed.

Lemma logs_only_call_rule (ev : Event) rule : P ev -> logs_only P (call_rule ev rule).
Proof.
  intros Hev. unfold call_rule.
  apply logs_only_bind; [by apply logs_only_silent|]. intros host.
  apply logs_only_bind; [by apply logs_only_call|]. intros host'.
  by apply logs_only_silent.
Qed.

Lemma logs_only_chain (rules : list (M unit)) :
  Forall (logs_only P) rules -> logs_only P (chain rules).
Proof.
  induction 1 as [|rule rules Hrule _ IH]; simpl.
  - by apply logs_only_silent.
  - by apply logs_only_bind.
Qed.

Lemma logs_only_app_component (p : string) :
  P (Call_read p) -> P (Call_createSourceFile p) ->
  logs_only P (addDirectiveToAppComponent p).
Proof.
  intros Hread Hparse s.
  destruct (tree s !! p) as [text|] eqn:Hfile.
  - exists [Call_read p; Call_createSourceFile p].
    split; [|by repeat constructor].
    destruct (locate (createSourceFile p text)) as [site|] eqn:Hloc.
    + by rewrite (app_component_throws _ _ _ _ (decorator_located _ _ _ _ _ _ Hfile Hloc)).
    + by rewrite (app_component_throws _ _ _ _ (decorator_not_located _ _ _ _ _ Hfile Hloc)).
  - exists [Call_read p]. split; [|by repeat constructor].
    by rewrite (app_component_throws _ _ _ _ (decorator_file_absent _ _ _ _ Hfile)).
Qed.

End Log_facts.

(** What follows the validation is the work of lines 142-150, and the templates are staged
    with the selector of the options. *)
Lemma directive_chain_logs {collab : Collaborators}
    (host : gmap string string) (options : DirectiveOptions) :
  logs_only (fun ev => follows_validation ev = true
                       /\ forall rendered, ev = Call_mergeWith rendered ->
                                           rendered = selector options)
            (directive_chain host options).
Proof.
  unfold directive_chain.
  apply logs_only_bind; [by apply logs_only_call|]. intros appComponentPath.
  apply logs_only_chain. repeat constructor.
  - by apply logs_only_call_rule.
  - by apply logs_only_app_component.
  - apply logs_only_call_rule. split; [done|]. by intros rendered [= ->].
Qed.

Section Phase_facts.

Variables (Q : Event -> Prop) (R : list Event -> Prop).

Hypothesis R_nil : R [].

Lemma phased_silent {A} (m : M A) :
  (forall s, log (snd (m s)) = log s) -> phased Q R m.
Proof. intros Hm s. exists [], []. rewrite Hm, app_nil_r. by repeat split. Qed.

Lemma phased_bind {A B} (m : M A) (k : A -> M B) :
  logs_only Q m -> (forall a, phased Q R (k a)) -> phased Q R (bind m k).
Proof.
  intros Hm Hk s. unfold bind.
  destruct (Hm s) as (trace & Hlog & Htrace).
  destruct (m s) as [[a|e] s']; simpl in *.
  - destruct (Hk a s') as (setup & rest & Hlog' & Hsetup & Hrest).
    exists (trace ++ setup)%list, rest.
    rewrite Hlog', Hlog, <- !app_assoc. repeat split; [by apply Forall_app|done].
  - exists trace, []. rewrite app_nil_r. by repeat split.
Qed.

Lemma phased_call_return {A B} (ev : Event) (v : A) (k : A -> M B) :
  Q ev -> phased Q R (k v) -> phased Q R (bind (call ev (Return v)) k).
Proof.
  intros Hev Hk s. unfold bind, call, bind, record. simpl.
  destruct (Hk (mkState (tree s) (log s ++ [ev]))) as (setup & rest & Hlog & Hsetup & Hrest).
  exists (ev :: setup), rest. rewrite Hlog. simpl. rewrite <- app_assoc.
  repeat split; [by constructor|done].
Qed.

End Phase_facts.

(** The log of any run, by phases: calls that come before the validation
    and do none of the work of lines 142-150, then, when the run gets that
    far, the validation of the selector and that work. *)
Lemma factory_phases {collab : Collaborators}
    (options : DirectiveOptions) (s : State) :
  exists setup rest,
    log (snd (default_rule options s)) = (log s ++ setup ++ rest)%list
    /\ Forall (fun ev => follows_validation ev = false) setup
    /\ (forall supplied, truthy (selector options) = Some supplied ->
                         Call_buildSelector ∉ setup)
    /\ (rest = []
        \/ exists chosen work,
             rest = Call_validateHtmlSelector chosen :: work
             /\ Forall (fun ev => follows_validation ev = true) work
             /\ (forall rendered, Call_mergeWith rendered ∈ work -> rendered = Some chosen)
             /\ (forall supplied, truthy (selector options) = Some supplied ->
                                  chosen = supplied)
             /\ (truthy (selector options) = None ->
                 exists built projectPrefix,
                   prefix built = prefix options
                   /\ chosen = buildSelector built projectPrefix)).
Proof.
  set (Q := fun ev => follows_validation ev = false
                      /\ (is_Some (truthy (selector options)) -> ev <> Call_buildSelector)).
  set (R := fun rest : list Event =>
              rest = []
              \/ exists chosen work,
                   rest = Call_validateHtmlSelector chosen :: work
                   /\ Forall (fun ev => follows_validation ev = true) work
                   /\ (forall rendered, Call_mergeWith rendered ∈ work ->
                                        rendered = Some chosen)
                   /\ (forall supplied, truthy (selector options) = Some supplied ->
                                        chosen = supplied)
                   /\ (truthy (selector options) = None ->
                       exists built projectPrefix,
                         prefix built = prefix options
                         /\ chosen = buildSelector built projectPrefix)).
  assert (HR : R []) by by left.
  assert (Hplain : forall ev, follows_validation ev = false -> ev <> Call_buildSelector -> Q ev).
  { intros ev Hev Hne. by split. }
  assert (Hmain : phased Q R (default_rule options)).
  { unfold default_rule.
    apply phased_bind; [done|by apply logs_only_silent|]. intros host.
    apply phased_bind; [done|by apply logs_only_call, Hplain|]. intros workspace.
    destruct (project options ≫= _) as [proj|]; [|by apply phased_silent].
    apply phased_bind; [done| |].
    { destruct (path options);
        [by apply logs_only_silent|by apply logs_only_call, Hplain]. }
    intros path0. cbn [name prefix selector path project module skipTests flat].
    apply phased_bind; [done|by apply logs_only_call, Hplain|]. intros found.
    apply phased_bind; [done|by apply logs_only_call, Hplain|]. intros parsedPath.
    unfold resolve_selector. cbn [name prefix selector path project module skipTests flat].
    assert (Htail : forall chosen opts,
               selector opts = Some chosen ->
               (forall supplied, truthy (selector options) = Some supplied ->
                                 chosen = supplied) ->
               (truthy (selector options) = None ->
                exists built projectPrefix,
                  prefix built = prefix options
                  /\ chosen = buildSelector built projectPrefix) ->
               phased Q R (call (Call_validateHtmlSelector chosen)
                                (validateHtmlSelector chosen) ;;;
                           directive_chain host opts)).
    { intros chosen opts Hsel Hsupplied Hbuilt s0.
      unfold bind at 1. unfold call, bind, record. simpl.
      destruct (validateHtmlSelector chosen) as [[]|e].
      - destruct (directive_chain_logs host opts
                    (mkState (tree s0) (log s0 ++ [Call_validateHtmlSelector chosen])))
          as (work & Hlog & Hwork).
        exists [], (Call_validateHtmlSelector chosen :: work).
        rewrite Hlog. simpl. rewrite <- app_assoc.
        repeat split; [done|]. right. exists chosen, work.
        repeat split; [|intros rendered Hin|done|done].
        + eapply Forall_impl; [exact Hwork|]. by intros ev [Hev _].
        + rewrite Forall_forall in Hwork.
          destruct (Hwork _ Hin) as [_ Hrendered].
          rewrite <- Hsel. by apply Hrendered.
      - exists [], [Call_validateHtmlSelector chosen]. simpl.
        repeat split; [done|]. right. exists chosen, [].
        repeat split; [done|intros rendered Hin|done|done].
        by apply not_elem_of_nil in Hin. }
    destruct (truthy (selector options)) as [supplied|] eqn:Hsupplied.
    - intros s0. apply Htail; [done|intros ? ?; congruence|intros ?; congruence].
    - apply phased_call_return.
      + split; [done|]. by intros [? [=]].
      + apply Htail; [done|done|]. intros _.
        eexists _, _. split; last reflexivity. reflexivity. }
  destruct (Hmain s) as (setup & rest & Hlog & Hsetup & Hrest).
  exists setup, rest. repeat split; [done| | |done].
  - eapply Forall_impl; [exact Hsetup|]. by intros ev [Hev _].
  - intros supplied Hsupplied Hin.
    rewrite Forall_forall in Hsetup.
    destruct (Hsetup _ Hin) as [_ Hne]. by apply Hne.
Qed.


(** When the workspace lookup, the project lookup and the module lookup
    succeed, the factory reaches line 130 with the values of lines 119-128:
    the rest of the run is the validation of [selector_used] followed by
    the chain built from [options_for_chain]. *)
Lemma factory_setup_run {collab : Collaborators}
    (options : DirectiveOptions) (s : State)
    (workspace : gmap string ProjectDefinition) (proj : ProjectDefinition)
    (found : option string) :
  getWorkspace (tree s) = Return workspace ->
  project options ≫= (fun p => workspace !! p) = Some proj ->
  findModuleFromOptions (tree s) (options_for_lookup options proj) = Return found ->
  default_rule options s
  = (call (Call_validateHtmlSelector (selector_used options proj found))
          (validateHtmlSelector (selector_used options proj found)) ;;;
     directive_chain (tree s) (options_for_chain options proj found))
      (mkState (tree s) (log s ++ setup_calls options)).
Proof.
  intros Hworkspace Hproject Hfound.
  unfold default_rule.
  unfold bind at 1. unfold get_tree at 1.
  unfold bind at 1. unfold call at 1, bind at 1, record at 1. cbn [fst snd tree log].
  rewrite Hworkspace, Hproject.
  unfold options_for_chain, selector_used, options_after_parse, setup_calls,
    options_for_lookup, path_used in *.
  destruct (path options) as [given|].
  - unfold bind at 1, ret at 1.
    unfold bind at 1. unfold call at 1, bind at 1, record at 1. cbn [fst snd tree log].
    cbn [name prefix selector path project module skipTests flat] in *.
    rewrite Hfound.
    unfold bind at 1. unfold call at 1, bind at 1, record at 1. cbn [fst snd tree log].
    unfold resolve_selector.
    cbn [name prefix selector path project module skipTests flat].
    destruct (truthy (selector options)) as [supplied|].
    + unfold bind at 1, ret at 1. simpl app. rewrite <- !app_assoc. reflexivity.
    + unfold bind at 1. unfold call at 1, bind at 1, record at 1. cbn [fst snd tree log].
      simpl app. rewrite <- !app_assoc. reflexivity.
  - unfold bind at 1. unfold call at 1, bind at 1, record at 1. cbn [fst snd tree log].
    unfold bind at 1. unfold call at 1, bind at 1, record at 1. cbn [fst snd tree log].
    cbn [name prefix selector path project module skipTests flat] in *.
    rewrite Hfound.
    unfold bind at 1. unfold call at 1, bind at 1, record at 1. cbn [fst snd tree log].
    unfold resolve_selector.
    cbn [name prefix selector path project module skipTests flat].
    destruct (truthy (selector options)) as [supplied|].
    + unfold bind at 1, ret at 1. simpl app. rewrite <- !app_assoc. reflexivity.
    + unfold bind at 1. unfold call at 1, bind at 1, record at 1. cbn [fst snd tree log].
      simpl app. rewrite <- !app_assoc. reflexivity.
Qed.

(** The log of the validation and of the chain that follows it. *)
Lemma validated_tail_log {collab : Collaborators}
    (chosen : string) (host : gmap string string) (opts : DirectiveOptions) (s0 : State) :
  selector opts = Some chosen ->
  exists work,
    log (snd ((call (Call_validateHtmlSelector chosen) (validateHtmlSelector chosen) ;;;
               directive_chain host opts) s0))
    = (log s0 ++ Call_validateHtmlSelector chosen :: work)%list
    /\ Forall (fun ev => follows_validation ev = true) work
    /\ (forall rendered, Call_mergeWith rendered ∈ work -> rendered = Some chosen)
    /\ (forall e, validateHtmlSelector chosen = Throw e ->
                  work = []
                  /\ (call (Call_validateHtmlSelector chosen) (validateHtmlSelector chosen) ;;;
                      directive_chain host opts) s0
                     = (Throw e, mkState (tree s0)
                                         (log s0 ++ [Call_validateHtmlSelector chosen]))).
Proof.
  intros Hsel. unfold bind at 1. unfold call, bind, record. simpl.
  destruct (validateHtmlSelector chosen) as [[]|e].
  - destruct (directive_chain_logs host opts
                (mkState (tree s0) (log s0 ++ [Call_validateHtmlSelector chosen])))
      as (work & Hlog & Hwork).
    exists work. rewrite Hlog. simpl. rewrite <- app_assoc.
    split; [done|]. split; [|split; [|by intros e [=]]].
    + eapply Forall_impl; [exact Hwork|]. by intros ev [Hev _].
    + intros rendered Hin. rewrite Forall_forall in Hwork.
      destruct (Hwork _ Hin) as [_ Hrendered]. rewrite <- Hsel. by apply Hrendered.
  - exists []. simpl. split; [done|]. split; [done|]. split.
    + intros rendered Hin. by apply not_elem_of_nil in Hin.
    + by intros e' [= ->].
Qed.

(** ** The selector, its validation and the file work *)

(** C10, as the code has it. A non-empty selector option is used as it is
    and [buildSelector] is not called; otherwise the selector is the one
    [buildSelector] builds from the options with the parsed name and from
    the project prefix. The workspace and the module are looked up first
    (both calls are handed the tree). In every run the calls made before the
    validation do none of the work of lines 142-150; and when the workspace
    lookup, the project lookup and the module lookup succeed, the selector
    used is handed to [validateHtmlSelector] right after the calls of lines
    112-128, and the source files are parsed, edited and staged only after
    that call: a refusal ends the run there, and the templates are staged
    with the validated selector. *)
Theorem selector_validated_before_file_work {collab : Collaborators}
    (options : DirectiveOptions) (s : State) :
  (exists setup rest,
      log (snd (default_rule options s)) = (log s ++ setup ++ rest)%list
      /\ Forall (fun ev => follows_validation ev = false) setup
      /\ (forall supplied, truthy (selector options) = Some supplied ->
                           Call_buildSelector ∉ setup)
      /\ (rest = []
          \/ exists chosen work,
               rest = Call_validateHtmlSelector chosen :: work
               /\ Forall (fun ev => follows_validation ev = true) work
               /\ (forall rendered, Call_mergeWith rendered ∈ work ->
                                    rendered = Some chosen)
               /\ (forall supplied, truthy (selector options) = Some supplied ->
                                    chosen = supplied)
               /\ (truthy (selector options) = None ->
                   exists built projectPrefix,
                     prefix built = prefix options
                     /\ chosen = buildSelector built projectPrefix)))
  /\ forall workspace proj found,
       getWorkspace (tree s) = Return workspace ->
       project options ≫= (fun p => workspace !! p) = Some proj ->
       findModuleFromOptions (tree s) (options_for_lookup options proj) = Return found ->
       (forall supplied,
           truthy (selector options) = Some supplied ->
           selector_used options proj found = supplied
           /\ Call_buildSelector ∉ setup_calls options)
       /\ (truthy (selector options) = None ->
           selector_used options proj found
           = buildSelector (options_after_parse options proj found)
                           (default EmptyString (truthy (project_prefix proj)))
           /\ Call_buildSelector ∈ setup_calls options)
       /\ Forall (fun ev => follows_validation ev = false) (setup_calls options)
       /\ exists work,
            log (snd (default_rule options s))
            = (log s ++ setup_calls options
                 ++ Call_validateHtmlSelector (selector_used options proj found) :: work)%list
            /\ Forall (fun ev => follows_validation ev = true) work
            /\ (forall rendered,
                   Call_mergeWith rendered ∈ work ->
                   rendered = Some (selector_used options proj found))
            /\ (forall e,
                   validateHtmlSelector (selector_used options proj found) = Throw e ->
                   work = []
                   /\ fst (default_rule options s) = Throw e
                   /\ tree (snd (default_rule options s)) = tree s).
Proof.
  split; [exact (factory_phases options s)|].
  intros workspace proj found Hworkspace Hproject Hfound.
  split; [|split; [|split]].
  - intros supplied Hsupplied. unfold selector_used, setup_calls. rewrite Hsupplied.
    split; [done|].
    destruct (path options); simpl; intros Hin;
      repeat (apply elem_of_cons in Hin as [Hin|Hin]; [discriminate|]);
      by apply not_elem_of_nil in Hin.
  - intros Hnone. unfold selector_used, setup_calls. rewrite Hnone.
    split; [done|]. destruct (path options); simpl; repeat constructor.
  - unfold setup_calls.
    destruct (path options), (truthy (selector options)); by repeat constructor.
  - rewrite (factory_setup_run _ _ _ _ _ Hworkspace Hproject Hfound).
    destruct (validated_tail_log (selector_used options proj found) (tree s)
                (options_for_chain options proj found)
                (mkState (tree s) (log s ++ setup_calls options)) eq_refl)
      as (work & Hlog & Hwork & Hmerge & Hthrow).
    exists work. rewrite Hlog. simpl. rewrite <- app_assoc.
    split; [done|]. split; [done|]. split; [done|].
    intros e He. destruct (Hthrow e He) as [Hempty Hrun].
    split; [done|]. by rewrite Hrun.
Qed.

Lemma selector_validated_before_file_work_witness :
  log (snd (default_rule (collab := Samples.collaborators)
              (mkOptions "foo" None (Some "[appHighlight]") None (Some "demo") None
                         false false)
              (Samples.host_with Samples.with_imports_text)))
  = [Call_getWorkspace; Call_buildDefaultPath; Call_findModuleFromOptions; Call_parseName;
     Call_validateHtmlSelector "[appHighlight]"; Call_getAppModulePath;
     Call_addDeclarationToNgModule; Call_read Samples.component_path;
     Call_createSourceFile Samples.component_path]
  /\ selector_used (collab := Samples.collaborators)
       (mkOptions "foo" None (Some "[appHighlight]") None (Some "demo") None false false)
       Samples.app_project (Some "/src/app/app.module.ts")
     = "[appHighlight]".
Proof.
  destruct (proj2 (selector_validated_before_file_work (collab := Samples.collaborators)
                     (mkOptions "foo" None (Some "[appHighlight]") None (Some "demo") None
                                false false)
                     (Samples.host_with Samples.with_imports_text))
                  {[ "demo" := Samples.app_project ]} Samples.app_project
                  (Some "/src/app/app.module.ts") eq_refl eq_refl eq_refl)
    as (Hsupplied & _ & _ & work & Hlog & _).
  split; [|exact (proj1 (Hsupplied "[appHighlight]" eq_refl))].
  rewrite Hlog. vm_compute in Hlog. vm_compute.
  injection Hlog as <-. reflexivity.
Defined.

(** C10 as stated fails on the sample run: the workspace lookup and the
    module lookup, both handed the tree, come before the validation of the
    selector. *)
Lemma validation_first_counterexample :
  ~ (forall before chosen after,
        log (snd (default_rule (collab := Samples.collaborators) Samples.foo_options
                    (Samples.host_with Samples.with_imports_text)))
        = (before ++ Call_validateHtmlSelector chosen :: after)%list ->
        Forall (fun ev => is_file_work ev = false) before).
Proof.
  intros Hclaim.
  specialize (Hclaim [Call_getWorkspace; Call_buildDefaultPath; Call_findModuleFromOptions;
                      Call_parseName; Call_buildSelector]
                     "appFoo"
                     [Call_getAppModulePath; Call_addDeclarationToNgModule;
                      Call_read Samples.component_path;
                      Call_createSourceFile Samples.component_path]
                     eq_refl).
  apply Forall_cons_1 in Hclaim as [Hfirst _]. discriminate.
Qed.


(** C4, as the code has it. With the name [foo], no prefix, no selector
    option and the project prefix [app] (the workspace, project and module
    look-ups succeeding and the name parsing to [foo]), the selector built
    on line 128 is [appFoo], the camel form of [app-foo]: it is the one
    handed to [validateHtmlSelector] right after the calls of lines
    112-128, and it is the selector of the options from which the chain,
    and in it the rule that merges the templates, is built. *)
Theorem end_to_end_selector {collab : Collaborators}
    (options : DirectiveOptions) (s : State)
    (workspace : gmap string ProjectDefinition) (proj : ProjectDefinition)
    (found : option string) :
  name options = "foo" ->
  prefix options = None ->
  selector options = None ->
  getWorkspace (tree s) = Return workspace ->
  project options ≫= (fun p => workspace !! p) = Some proj ->
  project_prefix proj = Some "app" ->
  findModuleFromOptions (tree s) (options_for_lookup options proj) = Return found ->
  location_name (parseName (path_used options proj) "foo") = "foo" ->
  buildSelector options "app" = "appFoo"
  /\ selector_used options proj found = "appFoo"
  /\ selector (options_for_chain options proj found) = Some "appFoo"
  /\ default_rule options s
     = (call (Call_validateHtmlSelector "appFoo") (validateHtmlSelector "appFoo") ;;;
        directive_chain (tree s) (options_for_chain options proj found))
         (mkState (tree s) (log s ++ setup_calls options))
  /\ (forall appComponentPath,
         directive_rules (options_for_chain options proj found) appComponentPath !! 2
         = Some (call_rule (Call_mergeWith (Some "appFoo"))
                           (mergeTemplates (options_for_chain options proj found))))
  /\ exists work,
       log (snd (default_rule options s))
       = (log s ++ setup_calls options ++ Call_validateHtmlSelector "appFoo" :: work)%list.
Proof.
  intros Hname Hprefix Hselector Hworkspace Hproject Happ Hfound Hparsed.
  assert (Hbuilt : buildSelector options "app" = "appFoo").
  { unfold buildSelector. by rewrite Hname, Hprefix. }
  assert (Hused : selector_used options proj found = "appFoo").
  { unfold selector_used, options_after_parse, buildSelector.
    rewrite Hselector, Hname, Hparsed, Happ.
    cbn [truthy name prefix]. by rewrite Hprefix. }
  assert (Hchain : selector (options_for_chain options proj found) = Some "appFoo").
  { unfold options_for_chain. cbn [selector]. by rewrite Hused. }
  assert (Hrun := factory_setup_run _ _ _ _ _ Hworkspace Hproject Hfound).
  rewrite Hused in Hrun.
  repeat split; [done|done|done|done| |].
  - intros appComponentPath. unfold directive_rules. simpl. by rewrite Hused.
  - destruct (validated_tail_log "appFoo" (tree s) (options_for_chain options proj found)
                (mkState (tree s) (log s ++ setup_calls options)) Hchain)
      as (work & Hlog & _).
    exists work. rewrite Hrun, Hlog. simpl. by rewrite <- app_assoc.
Qed.

Lemma end_to_end_selector_witness :
  selector_used (collab := Samples.collaborators) Samples.foo_options Samples.app_project
                (Some "/src/app/app.module.ts")
  = "appFoo"
  /\ exists work,
       log (snd (default_rule (collab := Samples.collaborators) Samples.foo_options
                   (Samples.host_with Samples.with_imports_text)))
       = ([Call_getWorkspace; Call_buildDefaultPath; Call_findModuleFromOptions;
           Call_parseName; Call_buildSelector]
            ++ Call_validateHtmlSelector "appFoo" :: work)%list.
Proof.
  destruct (end_to_end_selector (collab := Samples.collaborators) Samples.foo_options
              (Samples.host_with Samples.with_imports_text)
              {[ "demo" := Samples.app_project ]} Samples.app_project
              (Some "/src/app/app.module.ts")
              eq_refl eq_refl eq_refl eq_refl eq_refl eq_refl eq_refl eq_refl)
    as (_ & Hused & _ & _ & _ & work & Hlog).
  split; [exact Hused|]. exists work. exact Hlog.
Defined.

(** ** The component rule and the requested name *)

(** C9 (the code departs from the claim). Take two invocations that
    target the same component file, whatever their options and so whatever
    the requested names. The component rules that the factory chains for
    them run alike from every state, as the claim says of the text, but
    neither inserts any text: each run ends in an exception before the
    recorder is opened and leaves the tree as it was. *)
Theorem component_rule_for_any_name {collab : Collaborators}
    (options1 options2 : DirectiveOptions) (appComponentPath : string)
    (rule1 rule2 : M unit) (s : State) :
  directive_rules options1 appComponentPath !! 1 = Some rule1 ->
  directive_rules options2 appComponentPath !! 1 = Some rule2 ->
  rule1 s = rule2 s
  /\ (exists e, fst (rule1 s) = Throw e)
  /\ tree (snd (rule1 s)) = tree s
  /\ (exists trace,
         log (snd (rule1 s)) = (log s ++ trace)%list
         /\ Forall (fun ev => ev = Call_read appComponentPath
                              \/ ev = Call_createSourceFile appComponentPath) trace).
Proof.
  intros [= <-] [= <-].
  destruct (decorator_throws classifiedName_argument directivePath_argument
              appComponentPath s) as (e & s' & Hrun & Htree).
  rewrite (app_component_throws _ _ _ _ Hrun). simpl.
  repeat split; [by exists e|done|].
  destruct (logs_only_app_component
              (fun ev => ev = Call_read appComponentPath
                         \/ ev = Call_createSourceFile appComponentPath)
              appComponentPath (or_introl eq_refl) (or_intror eq_refl) s)
    as (trace & Hlog & Htrace).
  exists trace. rewrite (app_component_throws _ _ _ _ Hrun) in Hlog. by split.
Qed.

Lemma component_rule_for_any_name_witness :
  addDirectiveToAppComponent (collab := Samples.collaborators) Samples.component_path
    (Samples.host_with Samples.with_imports_text)
  = (Throw (Js.cannot_read "arguments"),
     after_parse Samples.component_path (Samples.host_with Samples.with_imports_text))
  /\ tree (snd (addDirectiveToAppComponent (collab := Samples.collaborators)
                  Samples.component_path (Samples.host_with Samples.with_imports_text)))
     = {[ Samples.component_path := Samples.with_imports_text ]}
  /\ occurrences (insert_text classifiedName_argument) Samples.with_imports_text = 0
  /\ occurrences "FooDirective" Samples.with_imports_text = 0
  /\ occurrences "BarDirective" Samples.with_imports_text = 0.
Proof.
  destruct (component_rule_for_any_name (collab := Samples.collaborators)
              (mkOptions "foo" None None None (Some "demo") None false false)
              (mkOptions "bar" None None None (Some "demo") None false false)
              Samples.component_path _ _
              (Samples.host_with Samples.with_imports_text) eq_refl eq_refl)
    as (_ & _ & Htree & _).
  split; [reflexivity|]. split; [exact Htree|]. repeat split.
Defined.

(** * Further properties of the file *)

(** ** The component file and the outcomes of the decorator edit *)

(** X1. When the component file is not in the tree, the edit pipeline fails
    with "Component file <path> not found.": the file is looked up once,
    nothing is parsed, no recorder is opened (which would fail on the
    missing path with another error), and the tree is as it was. *)
Theorem component_file_missing {collab : Collaborators} (p : string) (s : State) :
  tree s !! p = None ->
  addDirectiveToAppComponent p s
  = (Throw (SchematicsException ("Component file " ++ p ++ " not found.")),
     mkState (tree s) (log s ++ [Call_read p])).
Proof.
  intros Hread. apply app_component_throws. by apply decorator_file_absent.
Qed.

Lemma component_file_missing_witness :
  addDirectiveToAppComponent (collab := Samples.collaborators) "/src/app/other.component.ts"
    (Samples.host_with Samples.with_imports_text)
  = (Throw (SchematicsException "Component file /src/app/other.component.ts not found."),
     mkState {[ Samples.component_path := Samples.with_imports_text ]}
             [Call_read "/src/app/other.component.ts"]).
Proof.
  apply (component_file_missing (collab := Samples.collaborators)
           "/src/app/other.component.ts" (Samples.host_with Samples.with_imports_text)).
  reflexivity.
Defined.

(** X2. [addDirectiveToComponentDecorator] returns on no input. Every run
    leaves the tree as it was and ends in one of three exceptions, decided
    by the file and the locator alone: the file is absent; the file has no
    qualifying declaration; or a declaration was located, and then the
    exception is the [TypeError] of line 64. The two exceptions of lines 66
    and 80 are never raised, and the classified name and the directive path
    have no influence on the run. *)
Theorem decorator_outcomes {collab : Collaborators}
    (classifiedName directivePath p : string) (s : State) :
  let result := addDirectiveToComponentDecorator classifiedName directivePath p s in
  tree (snd result) = tree s
  /\ ((tree s !! p = None
       /\ result = (Throw (SchematicsException ("Component file " ++ p ++ " not found.")),
                    mkState (tree s) (log s ++ [Call_read p])))
      \/ (exists text, tree s !! p = Some text
                       /\ locate (createSourceFile p text) = None
                       /\ result = (Throw (DeclarationNotFound p), after_parse p s))
      \/ (exists text site, tree s !! p = Some text
                            /\ locate (createSourceFile p text) = Some site
                            /\ result = (Throw (Js.cannot_read "arguments"),
                                         after_parse p s)))
  /\ (forall changes, fst result <> Return changes)
  /\ fst result <> Throw (MalformedDeclaration p)
  /\ fst result <> Throw (MissingStructuralCollection p)
  /\ (forall otherName otherPath,
         addDirectiveToComponentDecorator otherName otherPath p s = result).
Proof.
  intros result. subst result.
  destruct (tree s !! p) as [text|] eqn:Hread.
  - destruct (locate (createSourceFile p text)) as [site|] eqn:Hloc.
    + rewrite (decorator_located _ _ _ _ _ _ Hread Hloc).
      repeat split; try discriminate.
      * right. right. by exists text, site.
      * intros. by apply (decorator_located _ _ _ text _ site).
    + rewrite (decorator_not_located _ _ _ _ _ Hread Hloc).
      repeat split; try discriminate.
      * right. left. by exists text.
      * intros. by apply (decorator_not_located _ _ _ text).
  - rewrite (decorator_file_absent _ _ _ _ Hread).
    repeat split; try discriminate.
    + by left.
    + intros. by apply decorator_file_absent.
Qed.

(** ** The lookup of the [imports] property *)

Lemma find_in_filtered {A} (f g : A -> bool) (l : list A) :
  List.find g (List.filter f l) = List.find (fun x => f x && g x) l.
Proof.
  induction l as [|x xs IH]; simpl; [done|].
  destruct (f x); simpl; [by rewrite IH|done].
Qed.

(** A property passes both callbacks exactly when it is an assignment whose
    key is the identifier [imports]. *)
Lemma imports_assignment_shape (prop : Ts.Node) :
  identifier_keyed_assignment prop && named_imports prop = true
  <-> exists value, prop = Ts.PropertyAssignment (Ts.Identifier "imports") value.
Proof.
  split.
  - intros [Hkeyed Hnamed]%andb_true_iff.
    destruct prop as [| | |nm value| | | | | | |]; try discriminate.
    destruct nm as [key| | | | | | | | | |]; try discriminate.
    unfold named_imports in Hnamed. simpl in Hnamed.
    apply bool_decide_eq_true_1 in Hnamed. injection Hnamed as ->.
    by exists value.
  - by intros [value ->].
Qed.

(** X3. Lines 70-72 select the first property of the located object literal
    that is an assignment keyed by the identifier [imports], and find
    nothing exactly when the literal has no such property: a shorthand
    [imports], or an assignment keyed by the string ['imports'], is passed
    over. *)
Theorem imports_property_lookup (site : Ts.Node) :
  (forall prop,
      find_imports_property site = Some prop ->
      exists value before after,
        prop = Ts.PropertyAssignment (Ts.Identifier "imports") value
        /\ Ts.properties_of site = (before ++ prop :: after)%list
        /\ Forall (fun earlier =>
                     forall v, earlier <> Ts.PropertyAssignment (Ts.Identifier "imports") v)
                  before)
  /\ (find_imports_property site = None
      <-> forall value,
            Ts.PropertyAssignment (Ts.Identifier "imports") value ∉ Ts.properties_of site).
Proof.
  unfold find_imports_property. rewrite find_in_filtered. split.
  - intros prop Hfind.
    destruct (find_split _ _ _ Hfind) as (before & after & Hsplit & Hbefore & Hprop).
    apply imports_assignment_shape in Hprop as [value ->].
    exists value, before, after. repeat split; [done|].
    eapply Forall_impl; [exact Hbefore|]. intros earlier Hearlier v ->.
    simpl in Hearlier. discriminate.
  - split.
    + intros Hnone value Hin.
      apply list_elem_of_In in Hin.
      by pose proof (find_none _ _ Hnone _ Hin).
    + intros Habsent. apply find_nothing. rewrite Forall_forall.
      intros prop Hin.
      destruct (identifier_keyed_assignment prop && named_imports prop) eqn:Hpass; [|done].
      apply imports_assignment_shape in Hpass as [value ->].
      by destruct (Habsent value).
Qed.

Lemma imports_property_lookup_witness :
  find_imports_property
    (Ts.ObjectLiteralExpression
       [Ts.ShorthandPropertyAssignment (Ts.Identifier "imports");
        Ts.PropertyAssignment (Ts.StringLiteral "imports")
                              (Ts.ArrayLiteralExpression [] 30 30)])
  = None.
Proof.
  apply (proj2 (imports_property_lookup
                  (Ts.ObjectLiteralExpression
                     [Ts.ShorthandPropertyAssignment (Ts.Identifier "imports");
                      Ts.PropertyAssignment (Ts.StringLiteral "imports")
                                            (Ts.ArrayLiteralExpression [] 30 30)]))).
  intros value Hin. simpl in Hin.
  apply elem_of_cons in Hin as [Hin|Hin]; [discriminate|].
  apply elem_of_cons in Hin as [Hin|Hin]; [discriminate|].
  by apply not_elem_of_nil in Hin.
Defined.

(** ** The factory before the chain *)

(** X4. When the workspace has no project under [options.project] (or the
    option is undefined), the factory fails with "Project "<name>" does not
    exist.", the name being [undefined] for an undefined option. Only the
    workspace was asked for; no path is built, no module looked up, no
    selector validated, and the tree is as it was. *)
Theorem unknown_project {collab : Collaborators}
    (options : DirectiveOptions) (s : State) (workspace : gmap string ProjectDefinition) :
  getWorkspace (tree s) = Return workspace ->
  project options ≫= (fun p => workspace !! p) = None ->
  default_rule options s
  = (Throw (SchematicsException
              ("Project " ++ quote ++ default "undefined" (project options) ++ quote
               ++ " does not exist.")),
     mkState (tree s) (log s ++ [Call_getWorkspace])).
Proof.
  intros Hworkspace Hproject.
  unfold default_rule, bind, get_tree, call, bind, record. simpl.
  rewrite Hworkspace. simpl. by rewrite Hproject.
Qed.

Lemma unknown_project_witness :
  fst (default_rule (collab := Samples.collaborators)
         (mkOptions "foo" None None None (Some "shop") None false false)
         (Samples.host_with Samples.with_imports_text))
  = Throw (SchematicsException
             ("Project " ++ quote ++ "shop" ++ quote ++ " does not exist."))
  /\ fst (default_rule (collab := Samples.collaborators)
            (mkOptions "foo" None None None None None false false)
            (Samples.host_with Samples.with_imports_text))
     = Throw (SchematicsException
                ("Project " ++ quote ++ "undefined" ++ quote ++ " does not exist.")).
Proof.
  split.
  - rewrite (unknown_project (collab := Samples.collaborators)
               (mkOptions "foo" None None None (Some "shop") None false false)
               (Samples.host_with Samples.with_imports_text)
               {[ "demo" := Samples.app_project ]}); reflexivity.
  - rewrite (unknown_project (collab := Samples.collaborators)
               (mkOptions "foo" None None None None None false false)
               (Samples.host_with Samples.with_imports_text)
               {[ "demo" := Samples.app_project ]}); reflexivity.
Defined.

(** X5. On line 128 an empty selector option counts as none: the selector
    is then built, with the project prefix when the project has a non-empty
    one and with no project prefix otherwise. In particular, with no
    explicit prefix (or an empty one) and a project without a prefix the
    selector is the camel form of the bare name. *)
Theorem empty_options_are_absent
    (options : DirectiveOptions) (proj : ProjectDefinition) (s : State) :
  selector options = None \/ selector options = Some EmptyString ->
  resolve_selector options proj s
  = (Return (buildSelector options (default EmptyString (project_prefix proj))),
     mkState (tree s) (log s ++ [Call_buildSelector]))
  /\ ((prefix options = None \/ prefix options = Some EmptyString) ->
      (project_prefix proj = None \/ project_prefix proj = Some EmptyString) ->
      resolve_selector options proj s
      = (Return (Strings.camelize (name options)),
         mkState (tree s) (log s ++ [Call_buildSelector]))).
Proof.
  intros Hselector.
  assert (Hrun : resolve_selector options proj s
                 = (Return (buildSelector options
                              (default EmptyString (project_prefix proj))),
                    mkState (tree s) (log s ++ [Call_buildSelector]))).
  { unfold resolve_selector.
    replace (truthy (selector options)) with (@None string)
      by (by destruct Hselector as [-> | ->]).
    replace (default EmptyString (truthy (project_prefix proj)))
      with (default EmptyString (project_prefix proj)); [done|].
    destruct (project_prefix proj) as [pp|]; simpl; [|done].
    by destruct (decide (pp = EmptyString)) as [->|]. }
  split; [done|].
  intros Hprefix Hproject. rewrite Hrun. do 2 f_equal.
  unfold buildSelector.
  destruct Hprefix as [-> | ->], Hproject as [-> | ->]; reflexivity.
Qed.

Lemma empty_options_are_absent_witness :
  resolve_selector (mkOptions "my-foo" (Some EmptyString) (Some EmptyString) None None None
                              false false)
                   (mkProject "" None) (mkState ∅ [])
  = (Return "myFoo", mkState ∅ [Call_buildSelector]).
Proof.
  apply (proj2 (empty_options_are_absent
                  (mkOptions "my-foo" (Some EmptyString) (Some EmptyString) None None None
                             false false)
                  (mkProject "" None) (mkState ∅ []) (or_intror eq_refl))).
  - by right.
  - by left.
Defined.

(** ** The template filter *)

Lemma substring_all (s : string) : substring 0 (String.length s) s = s.
Proof. induction s as [|c s IH]; simpl; [done|by rewrite IH]. Qed.

Lemma substring_after (a b : string) (m : nat) :
  substring (String.length a) m (a ++ b) = substring 0 m b.
Proof. induction a as [|c a IH]; simpl; [done|exact IH]. Qed.

Lemma length_appended (a b : string) :
  String.length (a ++ b) = String.length a + String.length b.
Proof. induction a as [|c a IH]; simpl; [done|by rewrite IH]. Qed.

Lemma split_at (s : string) (k : nat) :
  k <= String.length s ->
  s = substring 0 k s ++ substring k (String.length s - k) s.
Proof.
  revert k. induction s as [|c s IH]; intros k Hk; simpl in *.
  - by destruct k.
  - destruct k as [|k]; cbn.
    + by rewrite substring_all.
    + rewrite (IH k) at 1 by lia. reflexivity.
Qed.

Lemma split_suffix (s : string) (m : nat) :
  m <= String.length s ->
  s = substring 0 (String.length s - m) s ++ substring (String.length s - m) m s.
Proof.
  intros Hm.
  replace m with (String.length s - (String.length s - m)) at 3 by lia.
  apply split_at. lia.
Qed.

Lemma endsWith_spec (s suffix : string) :
  endsWith s suffix = true <-> exists stem, s = stem ++ suffix.
Proof.
  unfold endsWith. rewrite andb_true_iff, Nat.leb_le, String.eqb_eq. split.
  - intros [Hle Hsuffix]. exists (substring 0 (String.length s - String.length suffix) s).
    rewrite (split_suffix s (String.length suffix) Hle) at 1. by rewrite Hsuffix.
  - intros [stem ->]. rewrite length_appended. split; [lia|].
    replace (String.length stem + String.length suffix - String.length suffix)
      with (String.length stem) by lia.
    by rewrite substring_after, substring_all.
Qed.

(** X6. The template filter of line 133 drops a template exactly when
    [skipTests] is set and its path ends in [.spec.ts.template]; every other
    template, and every template when [skipTests] is not set, is kept. *)
Theorem spec_templates_skipped (options : DirectiveOptions) (templatePath : string) :
  keeps_template options templatePath = false
  <-> skipTests options = true
      /\ exists stem, templatePath = stem ++ ".spec.ts.template".
Proof.
  unfold keeps_template. rewrite <- endsWith_spec.
  destruct (skipTests options); [|by split; [|intros []]].
  rewrite negb_false_iff. by split; [|intros []].
Qed.

Lemma spec_templates_skipped_witness :
  keeps_template (mkOptions "foo" None None None None None true false)
                 "./files/__name@dasherize__.directive.spec.ts.template" = false
  /\ keeps_template (mkOptions "foo" None None None None None true false)
                    "./files/__name@dasherize__.directive.ts.template" = true.
Proof.
  split; [|reflexivity].
  apply (proj2 (spec_templates_skipped
                  (mkOptions "foo" None None None None None true false)
                  "./files/__name@dasherize__.directive.spec.ts.template")).
  split; [reflexivity|]. by exists "./files/__name@dasherize__.directive".
Defined.

(** ** Specifications of the factory *)

Section Triple_facts.

Context {A B : Type}.

Variables (Pre Inv : State -> Prop).
Variables (Returns : B -> State -> Prop) (Throws : Exception -> State -> Prop).

Lemma triple_bind (m : M A) (k : A -> M B) (Mid : A -> State -> Prop) :
  triple Pre m Mid Throws ->
  (forall a, triple (Mid a) (k a) Returns Throws) ->
  triple Pre (bind m k) Returns Throws.
Proof.
  intros Hm Hk s Hs. unfold bind. specialize (Hm s Hs).
  destruct (m s) as [[a|e] s']; [by apply Hk|done].
Qed.

Lemma triple_throw (e : Exception) :
  (forall s, Pre s -> Throws e s) -> triple Pre (throw e) Returns Throws.
Proof. intros Hthrows s Hs. by apply Hthrows. Qed.

Lemma triple_bind_ret (v : A) (k : A -> M B) :
  triple Pre (k v) Returns Throws -> triple Pre (bind (ret v) k) Returns Throws.
Proof. intros Hk s Hs. exact (Hk s Hs). Qed.

Lemma triple_bind_call_return (ev : Event) (v : A) (k : A -> M B) :
  logged_under Inv ev ->
  triple Inv (k v) Returns Throws ->
  triple Inv (bind (call ev (Return v)) k) Returns Throws.
Proof. intros Hev Hk s Hs. exact (Hk _ (Hev s Hs)). Qed.

Lemma triple_bind_call_throw (ev : Event) (e : Exception) (k : A -> M B) :
  (forall s, Inv s -> Throws e (mkState (tree s) (log s ++ [ev]))) ->
  triple Inv (bind (call ev (Throw e)) k) Returns Throws.
Proof. intros Hev s Hs. exact (Hev s Hs). Qed.

End Triple_facts.

Lemma triple_consequence {A} (Pre Pre' : State -> Prop) (m : M A)
    (Returns Returns' : A -> State -> Prop) (Throws Throws' : Exception -> State -> Prop) :
  triple Pre m Returns Throws ->
  (forall s, Pre' s -> Pre s) ->
  (forall a s, Returns a s -> Returns' a s) ->
  (forall e s, Throws e s -> Throws' e s) ->
  triple Pre' m Returns' Throws'.
Proof.
  intros Hm Hpre Hreturns Hthrows s Hs. specialize (Hm s (Hpre s Hs)).
  destruct (m s) as [[a|e] s']; [by apply Hreturns|by apply Hthrows].
Qed.

Section Invariant_facts.

Context {A : Type}.

Variables (Inv : State -> Prop) (Throws : Exception -> State -> Prop).

Hypothesis Inv_throws : forall e s, Inv s -> Throws e s.

Lemma triple_pure (m : M A) :
  (forall s, snd (m s) = s) -> triple Inv m (fun _ => Inv) Throws.
Proof.
  intros Hm s Hs. specialize (Hm s).
  destruct (m s) as [[a|e] s']; simpl in Hm; subst s'; [done|by apply Inv_throws].
Qed.

Lemma triple_call (ev : Event) (o : Outcome A) :
  logged_under Inv ev -> triple Inv (call ev o) (fun _ => Inv) Throws.
Proof.
  intros Hev s Hs. unfold call, bind, record. simpl.
  destruct o as [a|e]; [by apply Hev|by apply Inv_throws, Hev].
Qed.

End Invariant_facts.

(** Closes [Forall P (trace ++ events)] from [Forall P trace] when [P] holds
    of each of the listed events. *)
Ltac extend_trace :=
  apply Forall_app_2; [done|];
  repeat (apply List.Forall_cons; [first [done | by repeat split]|]);
  apply List.Forall_nil.

(** The factory up to the validation keeps any invariant that the logging
    of its own calls keeps; what follows is left to [tail]. *)
Lemma factory_triple {collab : Collaborators}
    (Inv : State -> Prop) (Throws : Exception -> State -> Prop)
    (options : DirectiveOptions) :
  (forall ev, ev ∈ [Call_getWorkspace; Call_buildDefaultPath; Call_findModuleFromOptions;
                    Call_parseName] -> logged_under Inv ev) ->
  (truthy (selector options) = None -> logged_under Inv Call_buildSelector) ->
  (forall e s, Inv s -> Throws e s) ->
  (forall host chosen opts,
      (forall supplied, truthy (selector options) = Some supplied -> chosen = supplied) ->
      triple Inv
             (call (Call_validateHtmlSelector chosen) (validateHtmlSelector chosen) ;;;
              directive_chain host opts)
             (fun _ _ => False) Throws) ->
  triple Inv (default_rule options) (fun _ _ => False) Throws.
Proof.
  intros Hlogged Hbuilt Hthrows Htail.
  unfold default_rule.
  eapply triple_bind; [by apply triple_pure|]. intros host.
  eapply triple_bind; [apply triple_call; [done|apply Hlogged; set_solver]|].
  intros workspace.
  destruct (project options ≫= _) as [proj|];
    [|apply triple_throw; intros; by apply Hthrows].
  eapply triple_bind.
  { destruct (path options);
      [by apply triple_pure|apply triple_call; [done|apply Hlogged; set_solver]]. }
  intros path0. cbn [name prefix selector path project module skipTests flat].
  eapply triple_bind; [apply triple_call; [done|apply Hlogged; set_solver]|].
  intros found.
  eapply triple_bind; [apply triple_call; [done|apply Hlogged; set_solver]|].
  intros parsedPath.
  unfold resolve_selector. cbn [name prefix selector path project module skipTests flat].
  destruct (truthy (selector options)) as [supplied|] eqn:Hsupplied.
  - apply triple_bind_ret. apply Htail. intros ? ?. congruence.
  - apply triple_bind_call_return; [by apply Hbuilt|].
    apply Htail. intros ? ?. congruence.
Qed.

(** The component rule throws from every state and keeps the tree; it logs
    a read and at most a parse. *)
Lemma app_component_triple {collab : Collaborators} (Pre : State -> Prop) (p : string) :
  triple Pre (addDirectiveToAppComponent p) (fun _ _ => False)
         (fun _ s' => exists s, Pre s /\ tree s' = tree s
                                /\ (log s' = (log s ++ [Call_read p])%list
                                    \/ log s' = (log s ++ [Call_read p;
                                                           Call_createSourceFile p])%list)).
Proof.
  intros s Hs.
  destruct (tree s !! p) as [text|] eqn:Hread.
  - destruct (locate (createSourceFile p text)) as [site|] eqn:Hloc.
    + rewrite (app_component_throws _ _ _ _ (decorator_located _ _ _ _ _ _ Hread Hloc)).
      exists s. repeat split; [done|by right].
    + rewrite (app_component_throws _ _ _ _ (decorator_not_located _ _ _ _ _ Hread Hloc)).
      exists s. repeat split; [done|by right].
  - rewrite (app_component_throws _ _ _ _ (decorator_file_absent _ _ _ _ Hread)).
    exists s. repeat split; [done|by left].
Qed.

(** A collaborating rule, by what it turns the state into. *)
Lemma call_rule_triple (Pre : State -> Prop) (ev : Event)
    (rule : gmap string string -> Outcome (gmap string string)) :
  triple Pre (call_rule ev rule)
         (fun _ s' => exists s, Pre s /\ rule (tree s) = Return (tree s')
                                /\ log s' = (log s ++ [ev])%list)
         (fun _ s' => exists s, Pre s /\ tree s' = tree s
                                /\ log s' = (log s ++ [ev])%list).
Proof.
  intros s Hs. unfold call_rule, call, bind, record, get_tree, put_tree. simpl.
  destruct (rule (tree s)) as [host'|e] eqn:Hrule; simpl; by exists s.
Qed.

(** X7. The factory completes on no input: every run ends in an exception,
    whatever the collaborators answer, because the component rule of the
    chain always throws. The templated files are therefore never merged
    into the tree ([mergeWith] is never reached) and no update recorder is
    ever opened or committed. *)
Theorem factory_never_completes {collab : Collaborators}
    (options : DirectiveOptions) (s : State) :
  (exists e, fst (default_rule options s) = Throw e)
  /\ exists trace,
       log (snd (default_rule options s)) = (log s ++ trace)%list
       /\ Forall (fun ev => (forall rendered, ev <> Call_mergeWith rendered)
                            /\ (forall q, ev <> Call_beginUpdate q)
                            /\ (forall q, ev <> Call_commitUpdate q)) trace.
Proof.
  set (P := fun ev => (forall rendered, ev <> Call_mergeWith rendered)
                      /\ (forall q, ev <> Call_beginUpdate q)
                      /\ (forall q, ev <> Call_commitUpdate q)).
  set (Inv := fun s' => exists trace, log s' = (log s ++ trace)%list /\ Forall P trace).
  assert (Hlogged : forall ev, P ev -> logged_under Inv ev).
  { intros ev Hev s' (trace & Hlog & Htrace). exists (trace ++ [ev])%list. simpl.
    rewrite Hlog, app_assoc. split; [done|]. extend_trace. }
  assert (Hrun : triple Inv (default_rule options) (fun _ _ => False) (fun _ => Inv)).
  { apply factory_triple; [| |done|].
    - intros ev Hev. apply Hlogged.
      repeat (apply elem_of_cons in Hev as [->|Hev]; [by repeat split|]).
      by apply not_elem_of_nil in Hev.
    - intros _. by apply Hlogged.
    - intros host chosen opts _.
      eapply triple_bind; [apply triple_call; [done|by apply Hlogged]|]. intros ?.
      unfold directive_chain.
      eapply triple_bind; [apply triple_call; [done|by apply Hlogged]|].
      intros appComponentPath. unfold directive_rules, chain. simpl.
      assert (Hstep : forall ev s', P ev ->
                 (exists s0, Inv s0 /\ log s' = (log s0 ++ [ev])%list) -> Inv s').
      { intros ev s' Hev (s0 & (trace & Hlog0 & Htrace) & Hlog).
        exists (trace ++ [ev])%list. rewrite Hlog, Hlog0, app_assoc.
        split; [done|]. extend_trace. }
      eapply triple_bind.
      { eapply triple_consequence with (Returns' := fun _ => Inv);
          [apply (call_rule_triple Inv)|done| |].
        - intros _ s' (s0 & Hs0 & _ & Hlog). eapply Hstep; [|by exists s0]. done.
        - intros _ s' (s0 & Hs0 & _ & Hlog). eapply Hstep; [|by exists s0]. done. }
      intros ?. eapply triple_bind with (Mid := fun _ _ => False); [|by intros ? s' []].
      eapply triple_consequence; [apply (app_component_triple Inv)|done|done|].
      intros _ s' (s0 & (trace & Hlog0 & Htrace) & _ & [Hlog|Hlog]).
      + exists (trace ++ [Call_read appComponentPath])%list.
        rewrite Hlog, Hlog0, app_assoc. split; [done|]. extend_trace.
      + exists (trace ++ [Call_read appComponentPath;
                          Call_createSourceFile appComponentPath])%list.
        rewrite Hlog, Hlog0, app_assoc. split; [done|]. extend_trace. }
  assert (Hstart : Inv s).
  { exists []. by rewrite app_nil_r. }
  specialize (Hrun s Hstart).
  destruct (default_rule options s) as [[[]|e] s']; [done|].
  split; [by exists e|exact Hrun].
Qed.

(** X8. Whatever the collaborators answer, the only change the factory can
    make to the tree is the one of [addDeclarationToNgModule]: after a run
    the tree is the initial one, or the one that rule returned for the
    initial one. The component file is never rewritten and no templated
    file is ever added. *)
Theorem factory_tree_effect {collab : Collaborators}
    (options : DirectiveOptions) (s : State) :
  tree (snd (default_rule options s)) = tree s
  \/ exists declared,
       addDeclarationToNgModule declared (tree s)
       = Return (tree (snd (default_rule options s))).
Proof.
  set (Inv := fun s' : State => tree s' = tree s).
  set (Declared := fun s' : State =>
                     exists declared,
                       addDeclarationToNgModule declared (tree s) = Return (tree s')).
  set (Throws := fun (_ : Exception) s' => Inv s' \/ Declared s').
  assert (Hlogged : forall ev, logged_under Inv ev) by by intros ev s' Hs'.
  assert (Hthrows : forall e s', Inv s' -> Throws e s') by by left.
  assert (Hrun : triple Inv (default_rule options) (fun _ _ => False) Throws).
  { apply factory_triple; [done|done|done|].
    intros host chosen opts _.
    eapply triple_bind; [by apply triple_call|]. intros ?.
    unfold directive_chain.
    eapply triple_bind; [by apply triple_call|].
    intros appComponentPath. unfold directive_rules, chain. simpl.
    eapply triple_bind with (Mid := fun _ => Declared).
    { eapply triple_consequence; [apply (call_rule_triple Inv)|done| |].
      - intros ? s' (s0 & Hs0 & Hrule & _). exists opts. by rewrite <- Hs0.
      - intros ? s' (s0 & Hs0 & Htree & _). left. unfold Inv. by rewrite Htree. }
    intros ?. eapply triple_bind with (Mid := fun _ _ => False); [|by intros ? s' []].
    eapply triple_consequence; [apply (app_component_triple Declared)|done|done|].
    intros ? s' (s0 & (declared & Hdeclared) & Htree & _).
    right. exists declared. by rewrite Htree. }
  specialize (Hrun s eq_refl).
  destruct (default_rule options s) as [[[]|e] s']; [done|exact Hrun].
Qed.

(** X9. A supplied selector that [validateHtmlSelector] refuses stops the
    factory at line 130: the tree is as it was, and the only calls made are
    the workspace lookup, the default path, the module lookup, the name
    parsing and the validation itself, so that [buildSelector],
    [getAppModulePath], [addDeclarationToNgModule], the component rule and
    [mergeWith] are not reached. Once the validation has been reached, the
    exception of the run is the one the validation threw. *)
Theorem rejected_selector {collab : Collaborators}
    (options : DirectiveOptions) (s : State) (supplied : string) (e : Exception) :
  truthy (selector options) = Some supplied ->
  validateHtmlSelector supplied = Throw e ->
  tree (snd (default_rule options s)) = tree s
  /\ exists trace,
       log (snd (default_rule options s)) = (log s ++ trace)%list
       /\ Forall (fun ev => ev ∈ [Call_getWorkspace; Call_buildDefaultPath;
                                  Call_findModuleFromOptions; Call_parseName;
                                  Call_validateHtmlSelector supplied]) trace
       /\ (Call_validateHtmlSelector supplied ∈ trace ->
           fst (default_rule options s) = Throw e).
Proof.
  intros Hsupplied Hrefused.
  set (Inv := fun s' : State =>
                tree s' = tree s
                /\ exists trace,
                     log s' = (log s ++ trace)%list
                     /\ Forall (fun ev => ev ∈ [Call_getWorkspace; Call_buildDefaultPath;
                                                Call_findModuleFromOptions; Call_parseName])
                               trace).
  set (Throws := fun (e' : Exception) (s' : State) =>
                   tree s' = tree s
                   /\ exists trace,
                        log s' = (log s ++ trace)%list
                        /\ Forall (fun ev => ev ∈ [Call_getWorkspace; Call_buildDefaultPath;
                                                   Call_findModuleFromOptions;
                                                   Call_parseName;
                                                   Call_validateHtmlSelector supplied])
                                  trace
                        /\ (Call_validateHtmlSelector supplied ∈ trace -> e' = e)).
  assert (Hwider : forall trace,
             Forall (fun ev => ev ∈ [Call_getWorkspace; Call_buildDefaultPath;
                                     Call_findModuleFromOptions; Call_parseName]) trace ->
             Forall (fun ev => ev ∈ [Call_getWorkspace; Call_buildDefaultPath;
                                     Call_findModuleFromOptions; Call_parseName;
                                     Call_validateHtmlSelector supplied]) trace).
  { intros trace Htrace. eapply Forall_impl; [exact Htrace|].
    intros ev Hev.
    repeat (apply elem_of_cons in Hev as [->|Hev]; [by repeat constructor|]).
    by apply not_elem_of_nil in Hev. }
  assert (Hthrows : forall e' s', Inv s' -> Throws e' s').
  { intros e' s' (Htree & trace & Hlog & Htrace). split; [done|].
    exists trace. split; [done|]. split; [by apply Hwider|].
    intros Hin. rewrite Forall_forall in Htrace. specialize (Htrace _ Hin).
    repeat (apply elem_of_cons in Htrace as [Htrace|Htrace]; [discriminate|]).
    by apply not_elem_of_nil in Htrace. }
  assert (Hrun : triple Inv (default_rule options) (fun _ _ => False) Throws).
  { apply factory_triple; [| |done|].
    - intros ev Hev s' (Htree & trace & Hlog & Htrace). split; [done|].
      exists (trace ++ [ev])%list. simpl. rewrite Hlog, app_assoc. split; [done|].
      apply Forall_app_2; [done|]. by apply List.Forall_cons.
    - intros Hnone. congruence.
    - intros host chosen opts Hchosen. rewrite (Hchosen supplied Hsupplied), Hrefused.
      apply triple_bind_call_throw.
      intros s' (Htree & trace & Hlog & Htrace). split; [done|].
      exists (trace ++ [Call_validateHtmlSelector supplied])%list. simpl.
      rewrite Hlog, app_assoc. split; [done|]. split; [|done].
      apply Forall_app_2; [by apply Hwider|].
      apply List.Forall_cons; [by repeat constructor|done]. }
  assert (Hstart : Inv s).
  { split; [done|]. exists []. by rewrite app_nil_r. }
  specialize (Hrun s Hstart).
  destruct (default_rule options s) as [[[]|e'] s']; [done|].
  destruct Hrun as (Htree & trace & Hlog & Htrace & Hreached).
  split; [done|]. exists trace. repeat split; [done|done|].
  intros Hin. simpl. f_equal. by apply Hreached.
Qed.

Lemma rejected_selector_witness :
  fst (default_rule (collab := Strict.collaborators)
         (mkOptions "foo" None (Some "app foo") None (Some "demo") None false false)
         (Samples.host_with Samples.with_imports_text))
  = Throw (Strict.refusal "app foo")
  /\ tree (snd (default_rule (collab := Strict.collaborators)
                  (mkOptions "foo" None (Some "app foo") None (Some "demo") None
                             false false)
                  (Samples.host_with Samples.with_imports_text)))
     = {[ Samples.component_path := Samples.with_imports_text ]}.
Proof.
  destruct (rejected_selector (collab := Strict.collaborators)
              (mkOptions "foo" None (Some "app foo") None (Some "demo") None false false)
              (Samples.host_with Samples.with_imports_text)
              "app foo" (Strict.refusal "app foo") eq_refl eq_refl)
    as (Htree & trace & Hlog & _ & Hreached).
  split; [|exact Htree].
  apply Hreached. simpl in Hlog. rewrite <- Hlog. vm_compute.
  repeat constructor.
Defined.
